(** * LazyFCA: a shallow embedding of [lazy_fca_estimator.py]

    The estimator is a lazy binary classifier: [predict] pairs every query
    row with the training rows, generalises each pair into a pattern
    ([_compute_instersection]), asks [_compute_extent_target] for a verdict
    and counts votes.  The embedding follows the Python text statement by
    statement, including the run-time errors the interpreter raises, because
    most of what can be said about this file is about where it stops.

    Conventions of the embedding.
    - A Python computation that may raise is a [result]; a generator body is
      a [gen], which threads the outcomes yielded so far and the confidence
      log and may stop with an exception.
    - Feature cells are strings or numbers.  Finite floats are rationals and
      the code only compares them (and takes min/max), so a number is a [Q].
      Counts are Python ints ([Z]); true division of two ints is the double
      nearest to the quotient, a rational again, and raises
      [ZeroDivisionError] on a zero divisor.
    - The scikit-learn validators are modelled by what they do to arrays of
      such cells: [check_array] raises [ValueError] on an array without rows
      or without columns and on a cell that cannot be read as a finite
      number, and returns the array with every cell a number otherwise;
      [check_X_y] also wants as many labels as rows.  How Python's [float]
      reads a string is a parameter, [to_float].  [check_is_fitted] lets
      every estimator pass (the constructor sets [classes_] and
      [confidence_], names that end in an underscore); [tqdm] hands on the
      rows.  [unique_labels] is the sorted list of the distinct labels.
    - An interval policy supplied by the caller is a function of two cells
      that returns a pattern entry and does not raise. *)

From Stdlib Require Import String Ascii ZArith QArith Bool Lia List Permutation.
Import ListNotations.
Open Scope Z_scope.

(** ** Python primitives used by the estimator *)
Module Py.

Inductive exn : Type :=
| ValueError
| TypeError
| IndexError
| ZeroDivisionError
| OverflowError
| AttributeError.

Inductive result (A : Type) : Type :=
| Ok (a : A)
| Raise (e : exn).
Arguments Ok {A} a.
Arguments Raise {A} e.

Definition bind {A B} (r : result A) (k : A -> result B) : result B :=
  match r with
  | Ok a => k a
  | Raise e => Raise e
  end.

Notation "x <- r ;; k" := (bind r (fun x => k))
  (at level 61, r at next level, right associativity).

(** [seq[i]] on a list or a one-dimensional array. *)
Definition getitem {A} (l : list A) (i : nat) : result A :=
  match nth_error l i with
  | Some a => Ok a
  | None => Raise IndexError
  end.

Fixpoint replace_nth {A} (l : list A) (i : nat) (a : A) : list A :=
  match l, i with
  | [], _ => []
  | _ :: l', O => a :: l'
  | b :: l', S i' => b :: replace_nth l' i' a
  end.

(** [arr[i] = a] on a one-dimensional array (arrays are mutable). *)
Definition setitem {A} (l : list A) (i : nat) (a : A) : result (list A) :=
  if (i <? length l)%nat then Ok (replace_nth l i a) else Raise IndexError.

Definition range (n : nat) : list nat := seq 0 n.

(** What the body of a [for] loop tells the loop: go on with the next
    element ([continue] or falling off the end of the body) or [break]. *)
Inductive flow (S : Type) : Type :=
| Next (s : S)
| Break (s : S).
Arguments Next {S} s.
Arguments Break {S} s.

(** [for a in xs: body], threading the variables the body assigns. *)
Fixpoint for_in {A S} (xs : list A) (body : A -> S -> result (flow S)) (s : S)
  : result S :=
  match xs with
  | [] => Ok s
  | a :: xs' =>
      match body a s with
      | Raise e => Raise e
      | Ok (Break s') => Ok s'
      | Ok (Next s') => for_in xs' body s'
      end
  end.

(** A sequence of ints: a tuple (immutable) or a list (mutable). *)
Inductive pyseq : Type :=
| PyTuple (items : list Z)
| PyList (items : list Z).

Definition seq_items (s : pyseq) : list Z :=
  match s with
  | PyTuple items => items
  | PyList items => items
  end.

Definition seq_getitem (s : pyseq) (i : nat) : result Z :=
  getitem (seq_items s) i.

(** [s[i] = v]: a tuple does not support item assignment. *)
Definition seq_setitem (s : pyseq) (i : nat) (v : Z) : result pyseq :=
  match s with
  | PyTuple _ => Raise TypeError
  | PyList items => l <- setitem items i v ;; Ok (PyList l)
  end.

(** [s[i] += d]: read the item, add, store the sum back. *)
Definition iadd_item (s : pyseq) (i : nat) (d : Z) : result pyseq :=
  v <- seq_getitem s i ;;
  seq_setitem s i (v + d).

(** The double nearest to [n / d] for [0 <= n] and [0 < d], ties going to
    the even mantissa, with 53 bits down to the exponent -1022 and steps of
    [2 ^ -1074] below; [None] where it would be [2 ^ 1024] or more.  With
    [e] the integer part of the binary logarithm of the quotient, the step
    is [2 ^ p] for [p = max e (-1022) - 52], and the double is the nearest
    multiple [M * 2 ^ p]. *)
Definition nearest_double (n d : Z) : option Q :=
  if n =? 0 then Some 0%Q
  else
    let e0 := Z.log2 n - Z.log2 d in
    let below :=
      if 0 <=? e0 then n <? d * 2 ^ e0 else n * 2 ^ (- e0) <? d in
    let e := if below then e0 - 1 else e0 in
    let p := Z.max e (-1022) - 52 in
    let N := if 0 <=? p then n else n * 2 ^ (- p) in
    let D := if 0 <=? p then d * 2 ^ p else d in
    let m := N / D in
    let r := N mod D in
    let M := if (D <? 2 * r) || ((D =? 2 * r) && Z.odd m) then m + 1 else m in
    if 0 <=? p then
      if 2 ^ 1024 <=? M * 2 ^ p then None
      else Some (inject_Z (M * 2 ^ p))
    else Some (M # Z.to_pos (2 ^ (- p))).

(** [a / b] on ints: the correctly rounded double, as a rational. *)
Definition truediv (a b : Z) : result Q :=
  if b =? 0 then Raise ZeroDivisionError
  else
    match nearest_double (Z.abs a) (Z.abs b) with
    | None => Raise OverflowError
    | Some q => Ok (if Z.sgn a * Z.sgn b <? 0 then (- q)%Q else q)
    end.

Definition truthy (z : Z) : bool := negb (z =? 0).

End Py.
Import Py.

(** ** Data *)

(** A feature cell: [type(v) is str] holds of [VStr] only. *)
Inductive value : Type :=
| VStr (s : string)
| VNum (q : Q).

(** An end of an interval: a cell value or [float('inf')]. *)
Inductive bound : Type :=
| BVal (v : value)
| BInf.

(** An entry of a pattern: a cell copied from the query, the wildcard (the
    string ["*"]), or the pair an interval policy returned. *)
Inductive pvalue : Type :=
| PVal (v : value)
| PTuple (lo hi : bound).

Definition wildcard : pvalue := PVal (VStr "*").

Definition row := list value.
Definition pattern := list pvalue.

(** [a != b] on two cells. *)
Definition value_ne (a b : value) : bool :=
  match a, b with
  | VStr s, VStr t => negb (s =? t)%string
  | VNum p, VNum q => negb (Qeq_bool p q)
  | _, _ => true
  end.

(** [p != s] for a pattern entry [p] and a string [s]. *)
Definition pvalue_ne_str (p : pvalue) (s : string) : bool :=
  match p with
  | PVal (VStr t) => negb (t =? s)%string
  | _ => true
  end.

(** [a < b]; strings compare with strings, numbers with numbers. *)
Definition py_lt (a b : bound) : result bool :=
  match a, b with
  | BVal (VStr s), BVal (VStr t) => Ok (String.ltb s t)
  | BVal (VNum p), BVal (VNum q) =>
      Ok (match (p ?= q)%Q with Lt => true | _ => false end)
  | BVal (VNum _), BInf => Ok true
  | BInf, BVal (VNum _) => Ok false
  | BInf, BInf => Ok false
  | _, _ => Raise TypeError
  end.

(** [p[k]]: a character of a string, or a component of a pair; a number
    has no items. *)
Definition subscript (p : pvalue) (k : nat) : result bound :=
  match p with
  | PVal (VStr s) =>
      match String.get k s with
      | Some c => Ok (BVal (VStr (String c EmptyString)))
      | None => Raise IndexError
      end
  | PVal (VNum _) => Raise IndexError
  | PTuple lo hi =>
      match k with
      | O => Ok lo
      | S O => Ok hi
      | _ => Raise IndexError
      end
  end.

(** A NumPy array as the code meets it: a row (one dimension) or a table
    (two dimensions). *)
Inductive ndarray : Type :=
| Arr1 (cells : row)
| Arr2 (rows : list row).

Definition shape (a : ndarray) : list nat :=
  match a with
  | Arr1 cells => [length cells]
  | Arr2 rows => [length rows; match rows with [] => O | r :: _ => length r end]
  end.

(** [a[i][j]].  On a row, [a[i]] is a cell and has no items; the code asks
    a row for [shape[1]] first and never gets here. *)
Definition cell (a : ndarray) (i j : nat) : result value :=
  match a with
  | Arr1 _ => Raise IndexError
  | Arr2 rows => r <- getitem rows i ;; getitem r j
  end.

(** The label argument: an array of labels, or one label (which has no
    items). *)
Inductive labels : Type :=
| LArray (ys : list Z)
| LScalar (y : Z).

Definition label_at (Y : labels) (i : nat) : result Z :=
  match Y with
  | LArray ys => getitem ys i
  | LScalar _ => Raise IndexError
  end.

(** ** Interval policies and how they are called *)

(** An actual argument of a call: the estimator itself or a cell. *)
Inductive arg : Type :=
| ASelf
| AVal (v : value).

Definition arg_bound (a : arg) : result bound :=
  match a with
  | ASelf => Raise TypeError
  | AVal v => Ok (BVal v)
  end.

(** [min(a, b)] and [max(a, b)]: the second argument wins only when it is
    strictly smaller (larger). *)
Definition py_min (a b : arg) : result bound :=
  x <- arg_bound a ;; y <- arg_bound b ;;
  lt <- py_lt y x ;; Ok (if lt then y else x).

Definition py_max (a b : arg) : result bound :=
  x <- arg_bound a ;; y <- arg_bound b ;;
  gt <- py_lt x y ;; Ok (if gt then y else x).

(** A function written [def f(a, b)]: it takes exactly two positional
    arguments. *)
Definition def2 := arg -> arg -> result pvalue.

Definition apply_def2 (f : def2) (args : list arg) : result pvalue :=
  match args with
  | [a; b] => f a b
  | _ => Raise TypeError
  end.

Definition _basic_interval : def2 := fun a b =>
  lo <- py_min a b ;; hi <- py_max a b ;; Ok (PTuple lo hi).

Definition _min_inf_interval : def2 := fun a b =>
  lo <- py_min a b ;; Ok (PTuple lo BInf).

Definition _min_max_interval : def2 := fun a b =>
  lo <- py_max a b ;; Ok (PTuple lo BInf).

(** What [self.numerical_preprocessing] holds: [self._basic_interval] and
    its siblings are bound methods, which pass the estimator as first
    argument; a callable given by the caller is stored as it is. *)
Inductive callable : Type :=
| BoundMethod (f : def2)
| Function (g : value -> value -> pvalue).

Definition call (c : callable) (a b : value) : result pvalue :=
  match c with
  | BoundMethod f => apply_def2 f [ASelf; AVal a; AVal b]
  | Function g => Ok (g a b)
  end.

(** The [numerical_preprocessing] argument of the constructor. *)
Inductive policy_arg : Type :=
| PolicyCallable (g : value -> value -> pvalue)
| PolicyName (name : string)
| PolicyNone.

(** The choice made in [__init__]. *)
Definition init_numerical_preprocessing (p : policy_arg) : callable :=
  match p with
  | PolicyCallable g => Function g
  | PolicyName name =>
      if (name =? "min_inf_interval")%string then BoundMethod _min_inf_interval
      else if (name =? "max_inf_interval")%string then BoundMethod _min_max_interval
      else BoundMethod _basic_interval
  | PolicyNone => BoundMethod _basic_interval
  end.

(** ** The estimator *)

(** The attributes of an estimator: the constructor's parameters and what
    [fit] and [predict] store.  [X_] and [y_] exist once [fit] has set them
    ([None] here: no such attribute).  [classes_] is there from the start
    and holds Python's [None] ([None] here as well) until training data have
    been seen. *)
Record LazyFCA : Type := {
  consistency_threshold : Q;
  undefined_treshhold : Q;
  min_extent_size : Z;
  check_number : Z;
  numerical_preprocessing : callable;
  classes_ : option (list Z);
  X_ : option (list row);
  y_ : option (list Z);
  confidence_ : list Q
}.

Definition set_classes_ (self : LazyFCA) (c : list Z) : LazyFCA :=
  {| consistency_threshold := consistency_threshold self;
     undefined_treshhold := undefined_treshhold self;
     min_extent_size := min_extent_size self;
     check_number := check_number self;
     numerical_preprocessing := numerical_preprocessing self;
     classes_ := Some c;
     X_ := X_ self;
     y_ := y_ self;
     confidence_ := confidence_ self |}.

Definition set_confidence_ (self : LazyFCA) (log : list Q) : LazyFCA :=
  {| consistency_threshold := consistency_threshold self;
     undefined_treshhold := undefined_treshhold self;
     min_extent_size := min_extent_size self;
     check_number := check_number self;
     numerical_preprocessing := numerical_preprocessing self;
     classes_ := classes_ self;
     X_ := X_ self;
     y_ := y_ self;
     confidence_ := log |}.

Fixpoint insert_label (y : Z) (l : list Z) : list Z :=
  match l with
  | [] => [y]
  | z :: l' =>
      if y <? z then y :: l
      else if y =? z then l
      else z :: insert_label y l'
  end.

(** The distinct labels, in increasing order. *)
Definition unique_labels (Y : list Z) : list Z :=
  fold_right insert_label [] Y.

(** *** The validators *)

(** What [check_array] makes of a cell: a number stays, a string becomes
    the finite number [float] reads from it, if there is one. *)
Definition convert_cell (to_float : string -> option Q) (v : value)
  : result value :=
  match v with
  | VNum _ => Ok v
  | VStr s =>
      match to_float s with
      | Some q => Ok (VNum q)
      | None => Raise ValueError
      end
  end.

Fixpoint convert_row (to_float : string -> option Q) (r : row) : result row :=
  match r with
  | [] => Ok []
  | v :: r' =>
      v' <- convert_cell to_float v ;;
      r'' <- convert_row to_float r' ;;
      Ok (v' :: r'')
  end.

Fixpoint convert_rows (to_float : string -> option Q) (X : list row)
  : result (list row) :=
  match X with
  | [] => Ok []
  | r :: X' =>
      r' <- convert_row to_float r ;;
      X'' <- convert_rows to_float X' ;;
      Ok (r' :: X'')
  end.

(** [check_array(X)]: two dimensions, at least one row and one column,
    every cell a finite number. *)
Definition check_array (to_float : string -> option Q) (X : list row)
  : result (list row) :=
  match X with
  | [] => Raise ValueError
  | r :: X' =>
      if (length r =? 0)%nat
         || negb (forallb (fun r' => (length r' =? length r)%nat) X')
      then Raise ValueError
      else convert_rows to_float X
  end.

(** [check_X_y(X, y)]. *)
Definition check_X_y (to_float : string -> option Q) (X : list row)
    (y : list Z) : result (list row * list Z) :=
  X' <- check_array to_float X ;;
  if (length X' =? length y)%nat then Ok (X', y) else Raise ValueError.

(** [fit(X, y)]. *)
Definition fit (to_float : string -> option Q) (self : LazyFCA)
    (X : list row) (y : list Z) : result LazyFCA :=
  checked <- check_X_y to_float X y ;;
  Ok {| consistency_threshold := consistency_threshold self;
        undefined_treshhold := undefined_treshhold self;
        min_extent_size := min_extent_size self;
        check_number := check_number self;
        numerical_preprocessing := numerical_preprocessing self;
        classes_ := Some (unique_labels (snd checked));
        X_ := Some (fst checked);
        y_ := Some (snd checked);
        confidence_ := confidence_ self |}.

(** *** [_compute_instersection] *)

(** The body of the loop over the columns of [x]. *)
Definition intersect_column (self : LazyFCA) (x x_train : row)
    (i : nat) (intersection : pattern) : result (flow pattern) :=
  xi <- getitem x i ;;
  match xi with
  | VStr _ =>
      ti <- getitem x_train i ;;
      if value_ne xi ti then
        intersection' <- setitem intersection i wildcard ;;
        Ok (Next intersection')
      else Ok (Next intersection)
  | VNum _ =>
      ti <- getitem x_train i ;;
      p <- call (numerical_preprocessing self) xi ti ;;
      intersection' <- setitem intersection i p ;;
      Ok (Next intersection')
  end.

Definition _compute_instersection (self : LazyFCA) (x x_train : row)
  : result pattern :=
  for_in (range (length x)) (intersect_column self x x_train) (map PVal x).

(** *** [_compute_extent_target] *)

(** The body of the loop over the columns [j] of training row [i]; the
    variable threaded is [is_valid].  The numeric test sits in the [else] of
    the string comparison, and its outcome goes to [is_fit], which nothing
    reads. *)
Definition check_column (X_train : ndarray) (intersection : pattern)
    (i j : nat) (is_valid : bool) : result (flow bool) :=
  c <- cell X_train i j ;;
  match c with
  | VStr s =>
      p <- getitem intersection j ;;
      if pvalue_ne_str p "*" && pvalue_ne_str p s then Ok (Break false)
      else
        lo <- subscript p 0 ;;
        below <- py_lt (BVal c) lo ;;
        if below then Ok (Break is_valid)
        else
          hi <- subscript p 1 ;;
          above <- py_lt hi (BVal c) ;;
          if above then Ok (Break is_valid) else Ok (Next is_valid)
  | VNum _ => Ok (Next is_valid)
  end.

(** [is_valid] after the inner loop for training row [i]. *)
Definition row_is_valid (X_train : ndarray) (intersection : pattern) (i : nat)
  : result bool :=
  ncols <- getitem (shape X_train) 1 ;;
  for_in (range ncols) (check_column X_train intersection i) true.

(** The body of the loop over the training rows; the variable threaded is
    [labels_count]. *)
Definition count_row (X_train : ndarray) (Y_train : labels)
    (intersection : pattern) (i : nat) (labels_count : pyseq)
  : result (flow pyseq) :=
  is_valid <- row_is_valid X_train intersection i ;;
  if is_valid then
    y <- label_at Y_train i ;;
    if truthy y then
      labels_count' <- iadd_item labels_count 1 1 ;; Ok (Next labels_count')
    else
      labels_count' <- iadd_item labels_count 0 0 ;; Ok (Next labels_count')
  else Ok (Next labels_count).

Definition count_labels (X_train : ndarray) (Y_train : labels)
    (intersection : pattern) : result pyseq :=
  nrows <- getitem (shape X_train) 0 ;;
  for_in (range nrows) (count_row X_train Y_train intersection)
         (PyTuple [0; 0]).

(** The decision taken on the counts once the rows are scanned: [None] is
    "cannot be classified", [Some false] and [Some true] are the labels. *)
Definition extent_verdict (self : LazyFCA) (labels_count : pyseq)
  : result (option bool) :=
  c0 <- seq_getitem labels_count 0 ;;
  c1 <- seq_getitem labels_count 1 ;;
  let extent_size := c0 + c1 in
  if extent_size <? min_extent_size self then Ok None
  else if c1 <? c0 then
    share <- truediv c0 extent_size ;;
    if Qle_bool (consistency_threshold self) share then Ok (Some false)
    else Ok None
  else
    share <- truediv c1 extent_size ;;
    if Qle_bool (consistency_threshold self) share then Ok (Some true)
    else Ok None.

Definition _compute_extent_target (self : LazyFCA) (X_train : ndarray)
    (Y_train : labels) (intersection : pattern) : result (option bool) :=
  labels_count <- count_labels X_train Y_train intersection ;;
  extent_verdict self labels_count.

(** *** [predict] *)

(** What the generator yields for a query: a label, or [None]. *)
Definition outcome := option Z.

(** The state a running generator body works on: the outcomes yielded so
    far (oldest first) and [self.confidence_]. *)
Record gstate : Type := {
  yielded : list outcome;
  log : list Q
}.

Definition gen (A : Type) : Type := gstate -> gstate * result A.

Definition gret {A} (a : A) : gen A := fun g => (g, Ok a).

Definition gbind {A B} (m : gen A) (k : A -> gen B) : gen B :=
  fun g =>
    match m g with
    | (g', Ok a) => k a g'
    | (g', Raise e) => (g', Raise e)
    end.

Notation "x <~ m ;; k" := (gbind m (fun x => k))
  (at level 61, m at next level, right associativity).

Definition lift {A} (r : result A) : gen A := fun g => (g, r).

Definition yield (o : outcome) : gen unit :=
  fun g => ({| yielded := yielded g ++ [o]; log := log g |}, Ok tt).

(** [self.confidence_.append(c)]. *)
Definition append_confidence (c : Q) : gen unit :=
  fun g => ({| yielded := yielded g; log := log g ++ [c] |}, Ok tt).

(** [for a in xs: body] in a generator body (no [break]). *)
Fixpoint gfor {A} (xs : list A) (body : A -> gen unit) : gen unit :=
  match xs with
  | [] => gret tt
  | a :: xs' => _ <~ body a ;; gfor xs' body
  end.

(** The variables of the scan of one query. *)
Record scan_state : Type := {
  number_checked : Z;
  target_count : pyseq
}.

(** What the scan does with a verdict: [continue] on [None], else count the
    vote and test the stopping budget. *)
Definition vote (self : LazyFCA) (extent_target : option bool)
    (st : scan_state) : result (flow scan_state) :=
  match extent_target with
  | None => Ok (Next st)
  | Some b =>
      target_count' <-
        iadd_item (target_count st) (if b then 1%nat else 0%nat) 1 ;;
      let st' := {| number_checked := number_checked st;
                    target_count := target_count' |} in
      if check_number self <=? number_checked st' then Ok (Break st')
      else Ok (Next st')
  end.

(** The body of the loop over [zip(X_train, Y_train)]. *)
Definition scan_row (self : LazyFCA) (x : row) (tr : row * Z)
    (st : scan_state) : result (flow scan_state) :=
  let '(x_train, y_train) := tr in
  intersection <- _compute_instersection self x x_train ;;
  extent_target <-
    _compute_extent_target self (Arr1 x_train) (LScalar y_train) intersection ;;
  vote self extent_target st.

Definition scan (self : LazyFCA) (X_train : list row) (Y_train : list Z)
    (x : row) : result scan_state :=
  for_in (combine X_train Y_train) (scan_row self x)
         {| number_checked := 0; target_count := PyTuple [0; 0] |}.

(** [self.classes_[i]]; [None] cannot be subscripted. *)
Definition classes_item (self : LazyFCA) (i : nat) : result Z :=
  match classes_ self with
  | Some classes => getitem classes i
  | None => Raise TypeError
  end.

(** The statements after the scan: at most one label is yielded, then
    [None] is yielded in every case. *)
Definition resolve (self : LazyFCA) (confidence : bool) (st : scan_state)
  : gen unit :=
  t0 <~ lift (seq_getitem (target_count st) 0) ;;
  t1 <~ lift (seq_getitem (target_count st) 1) ;;
  _ <~ (if check_number self <=? t0 + t1 then
          if t1 <? t0 then
            _ <~ (if confidence then
                    c <~ lift (truediv t0 (number_checked st)) ;;
                    append_confidence c
                  else gret tt) ;;
            c0 <~ lift (classes_item self 0) ;;
            yield (Some c0)
          else if t0 <? t1 then
            _ <~ (if confidence then
                    c <~ lift (truediv t1 (number_checked st)) ;;
                    append_confidence c
                  else gret tt) ;;
            c1 <~ lift (classes_item self 1) ;;
            yield (Some c1)
          else gret tt
        else gret tt) ;;
  yield None.

(** One round of the loop over the queries. *)
Definition predict_row (self : LazyFCA) (X_train : list row)
    (Y_train : list Z) (confidence : bool) (x : row) : gen unit :=
  st <~ lift (scan self X_train Y_train x) ;;
  resolve self confidence st.

Definition in_01 (c : Z) : bool := (c =? 0) || (c =? 1).

(** The labels as the scan gets them: rewritten to 0 and 1 unless the two
    classes are 0 and 1 already. *)
Definition binarise (classes : list Z) (Y_train : list Z)
  : result (list Z) :=
  c0 <- getitem classes 0 ;;
  c1 <- getitem classes 1 ;;
  if negb (in_01 c0) || negb (in_01 c1) then
    Ok (map (fun y => if y =? c0 then 0 else 1) Y_train)
  else Ok Y_train.

(** What a call of [predict], advanced until it stops, leaves behind: the
    outcomes in the order they were yielded, how the body ended ([Ok tt]:
    the generator is exhausted; [Raise e]: the exception [e] came out of
    it), and the estimator. *)
Record run : Type := {
  outcomes : list outcome;
  ending : result unit;
  after : LazyFCA
}.

(** [self.name] for an attribute that may not be there. *)
Definition attribute {A} (a : option A) : result A :=
  match a with
  | Some v => Ok v
  | None => Raise AttributeError
  end.

(** What the first lines of [predict] leave: the estimator (with
    [classes_] set when training data were passed), the queries, the
    training rows and the labels. *)
Definition prepare (to_float : string -> option Q) (self : LazyFCA)
    (X : list row) (X_train : option (list row)) (Y_train : option (list Z))
  : result (LazyFCA * list row * list row * list Z) :=
  match X_train, Y_train with
  | Some Xt, Some Yt =>
      checked <- check_X_y to_float Xt Yt ;;
      X' <- check_array to_float X ;;
      Ok (set_classes_ self (unique_labels (snd checked)),
          X', fst checked, snd checked)
  | _, _ =>
      Xs <- attribute (X_ self) ;;
      ys <- attribute (y_ self) ;;
      Ok (self, X, Xs, ys)
  end.

(** [predict] from the class test on.  [len] of [None] is a
    [TypeError]. *)
Definition predict_body (self : LazyFCA) (X : list row)
    (X_train : list row) (Y_train : list Z) (confidence : bool) : run :=
  match classes_ self with
  | None => {| outcomes := []; ending := Raise TypeError; after := self |}
  | Some classes =>
      if (length classes <? 2)%nat || (2 <? length classes)%nat
      then {| outcomes := []; ending := Raise ValueError; after := self |}
      else
        match binarise classes Y_train with
        | Raise e => {| outcomes := []; ending := Raise e; after := self |}
        | Ok Y_train' =>
            let '(g, r) :=
              gfor X (predict_row self X_train Y_train' confidence)
                   {| yielded := []; log := [] |} in
            {| outcomes := yielded g;
               ending := r;
               after := set_confidence_ self (log g) |}
        end
  end.

(** [predict(X, X_train, Y_train, confidence)]. *)
Definition predict (to_float : string -> option Q) (self : LazyFCA)
    (X : list row) (X_train : option (list row)) (Y_train : option (list Z))
    (confidence : bool) : run :=
  match prepare to_float self X X_train Y_train with
  | Raise e => {| outcomes := []; ending := Raise e; after := self |}
  | Ok (self1, X', Xt, Yt) => predict_body self1 X' Xt Yt confidence
  end.

(** A reading of strings that finds no number in any: for data that hold
    no string, where the reading plays no part. *)
Definition no_number (s : string) : option Q := None.

(** An estimator as the constructor leaves it, with its defaults: never
    fitted. *)
Definition default_estimator : LazyFCA :=
  {| consistency_threshold := 9 # 10;
     undefined_treshhold := 8 # 10;
     min_extent_size := 2;
     check_number := 1;
     numerical_preprocessing := init_numerical_preprocessing PolicyNone;
     classes_ := None;
     X_ := None;
     y_ := None;
     confidence_ := [] |}.

(** The start of every scan. *)
Definition scan_start : scan_state :=
  {| number_checked := 0; target_count := PyTuple [0; 0] |}.

Definition is_str (v : value) : bool :=
  match v with
  | VStr _ => true
  | VNum _ => false
  end.

Definition is_num (v : value) : bool := negb (is_str v).


(** [len(self.classes_)], when [classes_] holds the classes. *)
Definition n_classes (self : LazyFCA) : option nat :=
  option_map (@length Z) (classes_ self).

(** Strictly increasing lists, the shape of [unique_labels]'s result. *)
Fixpoint increasing (l : list Z) : Prop :=
  match l with
  | [] => True
  | a :: l' => (forall b, In b l' -> a < b) /\ increasing l'
  end.

(** ** Sample data

    Three training rows of one numeric column, 1.0, 2.0 and 5.0, with
    labels 0, 0, 1; basic policy, [min_extent_size = 1], threshold 0.9,
    [check_number = 1]; queries 1.5 and 5.5. *)
Definition sample_estimator : LazyFCA :=
  {| consistency_threshold := 9 # 10;
     undefined_treshhold := 8 # 10;
     min_extent_size := 1;
     check_number := 1;
     numerical_preprocessing := init_numerical_preprocessing PolicyNone;
     classes_ := None;
     X_ := None;
     y_ := None;
     confidence_ := [] |}.

Definition sample_X_train : list row := [[VNum 1]; [VNum 2]; [VNum 5]].

Definition sample_Y_train : list Z := [0; 0; 1].

(** What [fit] on the sample makes of the sample estimator. *)
Definition sample_fitted : LazyFCA :=
  {| consistency_threshold := 9 # 10;
     undefined_treshhold := 8 # 10;
     min_extent_size := 1;
     check_number := 1;
     numerical_preprocessing := init_numerical_preprocessing PolicyNone;
     classes_ := Some [0; 1];
     X_ := Some sample_X_train;
     y_ := Some sample_Y_train;
     confidence_ := [] |}.

Definition sample_query_a : row := [VNum (3 # 2)].
Definition sample_query_b : row := [VNum (11 # 2)].

(** The same estimator with a policy of the caller's,
    [lambda a, b: (a, b)]. *)
Definition pair_policy (a b : value) : pvalue := PTuple (BVal a) (BVal b).

Definition sample_estimator_custom : LazyFCA :=
  {| consistency_threshold := 9 # 10;
     undefined_treshhold := 8 # 10;
     min_extent_size := 1;
     check_number := 1;
     numerical_preprocessing :=
       init_numerical_preprocessing (PolicyCallable pair_policy);
     classes_ := None;
     X_ := None;
     y_ := None;
     confidence_ := [] |}.

(** An estimator that differs from the default one in its threshold and
    minimal extent size only. *)
Definition estimator_with (threshold : Q) (min_size : Z) : LazyFCA :=
  {| consistency_threshold := threshold;
     undefined_treshhold := 8 # 10;
     min_extent_size := min_size;
     check_number := 1;
     numerical_preprocessing := init_numerical_preprocessing PolicyNone;
     classes_ := None;
     X_ := None;
     y_ := None;
     confidence_ := [] |}.

(** ** Attributes: [__init__], [get_params], [set_params]

    The three methods only store and read attributes by name, so here the
    estimator is the dictionary of the attributes set on the instance: names
    with the objects they hold, in the order they were first set.  What the
    class itself defines (its methods) is not in it. *)

Inductive pyobj : Type :=
| ONone
| OFloat (q : Q)
| OInt (z : Z)
| OStr (s : string)
| OCallable (c : callable)
| OList (l : list Q).

Definition attributes := list (string * pyobj).

(** What reading an attribute gives: the object, or [AttributeError]. *)
Inductive lookup (A : Type) : Type :=
| Found (a : A)
| AttributeError (name : string).
Arguments Found {A} a.
Arguments AttributeError {A} name.

(** [self.name], for a name the class does not define. *)
Fixpoint getattr (self : attributes) (name : string) : lookup pyobj :=
  match self with
  | [] => AttributeError name
  | (k, v) :: self' =>
      if (k =? name)%string then Found v else getattr self' name
  end.

(** [setattr(self, name, value)]: a name already there keeps its place. *)
Fixpoint setattr (self : attributes) (name : string) (value : pyobj)
  : attributes :=
  match self with
  | [] => [(name, value)]
  | (k, v) :: self' =>
      if (k =? name)%string then (k, value) :: self'
      else (k, v) :: setattr self' name value
  end.

(** The constructor: every parameter is stored as given, except the
    policy, which is stored as the callable chosen for it. *)
Definition __init__ (consistency_threshold undefined_treshhold
    min_extent_size check_number : pyobj)
    (numerical_preprocessing : policy_arg) : attributes :=
  [ ("consistency_threshold"%string, consistency_threshold);
    ("undefined_treshhold"%string, undefined_treshhold);
    ("min_extent_size"%string, min_extent_size);
    ("check_number"%string, check_number);
    ("numerical_preprocessing"%string,
     OCallable (init_numerical_preprocessing numerical_preprocessing));
    ("classes_"%string, ONone);
    ("confidence_"%string, OList []) ].

(** [get_params]: the dictionary of four entries, read in this order. *)
Definition get_params (self : attributes) : lookup attributes :=
  match getattr self "consistency_threshold" with
  | AttributeError n => AttributeError n
  | Found ct =>
      match getattr self "min_extent_size" with
      | AttributeError n => AttributeError n
      | Found mes =>
          match getattr self "check_all" with
          | AttributeError n => AttributeError n
          | Found ca =>
              match getattr self "numerical_preprocessing" with
              | AttributeError n => AttributeError n
              | Found np =>
                  Found [ ("consistency_threshold"%string, ct);
                          ("min_extent_size"%string, mes);
                          ("check_all"%string, ca);
                          ("numerical_preprocessing"%string, np) ]
              end
          end
      end
  end.

(** [set_params] on its keyword parameters: one [setattr] per item, in
    order. *)
Definition set_params (self : attributes) (parameters : attributes)
  : attributes :=
  fold_left (fun s kv => setattr s (fst kv) (snd kv)) parameters self.

(** ** What the properties below speak of *)

(** The pattern entry for a string cell [s] of the query against the cell
    [ti] of the training row. *)
Definition string_entry (s : string) (ti : value) : pvalue :=
  if value_ne (VStr s) ti then wildcard else PVal (VStr s).

(** The pattern entry a policy [g] of the caller's gives for a pair of
    cells. *)
Definition entry_with (g : value -> value -> pvalue) (xi ti : value)
  : pvalue :=
  match xi with
  | VStr s => string_entry s ti
  | VNum _ => g xi ti
  end.

(** [q] lies in the closed interval between [lo] and [hi]. *)
Definition within (lo hi : bound) (q : Q) : Prop :=
  match lo, hi with
  | BVal (VNum l), BVal (VNum h) => (l <= q)%Q /\ (q <= h)%Q
  | BVal (VNum l), BInf => (l <= q)%Q
  | _, _ => False
  end.

(** The generalisation written column by column, without indices: the
    entry of each pair of cells, the first exception met, and [IndexError]
    where the training row has run out. *)
Definition cell_entry (self : LazyFCA) (xi ti : value) : result pvalue :=
  match xi with
  | VStr s => Ok (string_entry s ti)
  | VNum _ => call (numerical_preprocessing self) xi ti
  end.

Fixpoint generalise (self : LazyFCA) (x t : row) : result pattern :=
  match x with
  | [] => Ok []
  | xi :: x' =>
      match t with
      | [] => Raise IndexError
      | ti :: t' =>
          e <- cell_entry self xi ti ;;
          rest <- generalise self x' t' ;;
          Ok (e :: rest)
      end
  end.

(** * Properties *)

(** ** Loops *)

Section Loops.
Context {A S : Type}.
Variable body : A -> S -> result (flow S).


(** A loop whose body goes on under an invariant until one element makes
    it raise, raises. *)
Lemma for_in_raise_at (I : S -> Prop) (xs1 : list A) (a : A)
    (xs2 : list A) (e : exn) :
  (forall b s, In b xs1 -> I s -> exists s', body b s = Ok (Next s') /\ I s') ->
  (forall s, I s -> body a s = Raise e) ->
  forall s, I s -> for_in (xs1 ++ a :: xs2) body s = Raise e.
Proof.
  induction xs1 as [|b xs1 IH]; intros Hpre Hat s Hs; simpl.
  - now rewrite (Hat s Hs).
  - destruct (Hpre b s (or_introl eq_refl) Hs) as (s' & -> & Hs').
    apply IH; auto. intros b0 s0 Hin. apply Hpre. now right.
Qed.

(** A property of the threaded variables that every round keeps holds
    when the loop ends. *)
Lemma for_in_invariant (I : S -> Prop) (xs : list A) :
  (forall a s s', In a xs -> I s ->
     body a s = Ok (Next s') \/ body a s = Ok (Break s') -> I s') ->
  forall s s', I s -> for_in xs body s = Ok s' -> I s'.
Proof.
  induction xs as [|a xs IH]; intros Hbody s s' Hs; simpl.
  - now intros [= <-].
  - destruct (body a s) as [[s1|s1]|e1] eqn:Hb.
    + apply IH.
      * intros a0 s0 s0' Hin. apply Hbody. now right.
      * apply (Hbody a s s1); auto. now left.
    + intros [= <-]. apply (Hbody a s s1); auto. now left.
    + discriminate.
Qed.
End Loops.

(** ** Indexing *)

Lemma getitem_Some {A} (l : list A) (i : nat) (a : A) :
  nth_error l i = Some a -> getitem l i = Ok a.
Proof. unfold getitem. now intros ->. Qed.

Lemma getitem_lt {A} (l : list A) (i : nat) :
  (i < length l)%nat -> exists a, getitem l i = Ok a.
Proof.
  intros Hi. unfold getitem.
  destruct (nth_error l i) as [a|] eqn:E; [now exists a|].
  apply nth_error_None in E. lia.
Qed.

Lemma replace_nth_length {A} (l : list A) (i : nat) (a : A) :
  length (replace_nth l i a) = length l.
Proof.
  revert i. induction l as [|b l IH]; intros [|i]; simpl; auto.
Qed.

Lemma setitem_lt {A} (l : list A) (i : nat) (a : A) :
  (i < length l)%nat -> setitem l i a = Ok (replace_nth l i a).
Proof.
  intros Hi. unfold setitem.
  now destruct (Nat.ltb_spec i (length l)); [|lia].
Qed.

Lemma in_range (i n : nat) : In i (range n) <-> (i < n)%nat.
Proof. unfold range. rewrite in_seq. lia. Qed.

Lemma range_split (k n : nat) :
  (k < n)%nat -> range n = range k ++ k :: seq (S k) (n - S k).
Proof.
  intros Hk. unfold range.
  replace n with (k + S (n - S k))%nat at 1 by lia.
  now rewrite seq_app.
Qed.

(** ** Calling the interval policies *)

(** A bound method hands three arguments to a function of two. *)
Lemma call_bound_method (f : def2) (a b : value) :
  call (BoundMethod f) a b = Raise TypeError.
Proof. reflexivity. Qed.

(** Called with its two arguments, the basic policy returns the interval
    between them; on one number twice, the interval of that number. *)
Lemma basic_interval_same (q : Q) :
  _basic_interval (AVal (VNum q)) (AVal (VNum q))
  = Ok (PTuple (BVal (VNum q)) (BVal (VNum q))).
Proof.
  unfold _basic_interval, py_min, py_max. simpl.
  now destruct (q ?= q)%Q.
Qed.

Lemma init_policy_not_callable (p : policy_arg) :
  (forall g, p <> PolicyCallable g) ->
  exists f, init_numerical_preprocessing p = BoundMethod f.
Proof.
  intros Hp. destruct p as [g|name|]; simpl.
  - now destruct (Hp g).
  - destruct (name =? "min_inf_interval")%string; [eauto|].
    destruct (name =? "max_inf_interval")%string; eauto.
  - eauto.
Qed.

(** ** [_compute_instersection] *)

Lemma first_numeric (x : row) :
  (exists q, In (VNum q) x) ->
  exists k q,
    nth_error x k = Some (VNum q) /\
    forall i, (i < k)%nat -> exists s, nth_error x i = Some (VStr s).
Proof.
  induction x as [|v x IH]; intros (q & Hin).
  - destruct Hin.
  - destruct v as [s|q0].
    + destruct Hin as [Heq|Hin]; [discriminate|].
      destruct IH as (k & q' & Hk & Hlt); [now exists q|].
      exists (S k), q'. split; [exact Hk|].
      intros [|i] Hi; simpl; [now exists s|]. apply Hlt. lia.
    + exists O, q0. split; [reflexivity|]. intros i Hi. lia.
Qed.

(** A string column of the query: the round goes on, with a pattern of the
    same length, as long as the training row has that column. *)
Lemma intersect_column_str (self : LazyFCA) (x t : row) (i : nat)
    (s : string) (p : pattern) :
  nth_error x i = Some (VStr s) ->
  (i < length t)%nat -> (i < length p)%nat ->
  exists p', intersect_column self x t i p = Ok (Next p')
             /\ length p' = length p.
Proof.
  intros Hx Ht Hp. unfold intersect_column.
  rewrite (getitem_Some _ _ _ Hx). cbn [bind].
  destruct (getitem_lt t i Ht) as (ti & ->). cbn [bind].
  destruct (value_ne (VStr s) ti).
  - rewrite (setitem_lt _ _ _ Hp). cbn [bind].
    eexists. split; [reflexivity|]. apply replace_nth_length.
  - now exists p.
Qed.

(** A numeric column under a built-in policy: the call raises. *)
Lemma intersect_column_num (self : LazyFCA) (f : def2) (x t : row)
    (i : nat) (q : Q) (p : pattern) :
  numerical_preprocessing self = BoundMethod f ->
  nth_error x i = Some (VNum q) ->
  (i < length t)%nat ->
  intersect_column self x t i p = Raise TypeError.
Proof.
  intros Hf Hx Ht. unfold intersect_column.
  rewrite (getitem_Some _ _ _ Hx). cbn [bind].
  destruct (getitem_lt t i Ht) as (ti & ->). cbn [bind].
  now rewrite Hf.
Qed.

Lemma intersection_numeric_raises (self : LazyFCA) (f : def2) (x t : row) :
  numerical_preprocessing self = BoundMethod f ->
  (exists q, In (VNum q) x) ->
  (length x <= length t)%nat ->
  _compute_instersection self x t = Raise TypeError.
Proof.
  intros Hf Hnum Hlen.
  destruct (first_numeric x Hnum) as (k & q & Hk & Hbefore).
  assert (Hkx : (k < length x)%nat)
    by (apply nth_error_Some; rewrite Hk; discriminate).
  unfold _compute_instersection. rewrite (range_split k (length x) Hkx).
  apply (for_in_raise_at _ (fun p => length p = length x)).
  - intros b p Hb Hp. apply in_range in Hb.
    destruct (Hbefore b Hb) as (s & Hs).
    destruct (intersect_column_str self x t b s p Hs) as (p' & Hp' & Hl);
      try lia.
    exists p'. split; [exact Hp'|]. congruence.
  - intros p _. apply (intersect_column_num self f x t k q p Hf Hk). lia.
  - now rewrite length_map.
Qed.


(** A query generalised with itself keeps every string column as it is. *)
Lemma intersection_self_strings (self : LazyFCA) (x : row) :
  forallb is_str x = true ->
  _compute_instersection self x x = Ok (map PVal x).
Proof.
  intros Hstr. unfold _compute_instersection.
  generalize (map PVal x) as p0.
  assert (Hbody : forall i p, In i (range (length x)) ->
            intersect_column self x x i p = Ok (Next p)).
  { intros i p Hi. apply in_range in Hi. unfold intersect_column.
    destruct (nth_error x i) as [v|] eqn:Hv;
      [|apply nth_error_None in Hv; lia].
    rewrite (getitem_Some _ _ _ Hv). cbn [bind].
    rewrite forallb_forall in Hstr.
    specialize (Hstr v (nth_error_In _ _ Hv)).
    destruct v as [s|q]; [|discriminate].
    cbn [bind value_ne]. now rewrite String.eqb_refl. }
  induction (range (length x)) as [|i l IH]; intros p0; simpl; [reflexivity|].
  rewrite Hbody by now left.
  apply IH. intros j p Hj. apply Hbody. now right.
Qed.

(** ** [_compute_extent_target] *)


Lemma extent_verdict_start (self : LazyFCA) :
  extent_verdict self (PyTuple [0; 0])
  = if 0 <? min_extent_size self then Ok None else Raise ZeroDivisionError.
Proof.
  unfold extent_verdict. simpl. now destruct (0 <? min_extent_size self).
Qed.

Lemma iadd_item_tuple (items : list Z) (i : nat) (d : Z) (s : pyseq) :
  iadd_item (PyTuple items) i d <> Ok s.
Proof.
  unfold iadd_item, seq_getitem. destruct (getitem _ _); discriminate.
Qed.

(** The counts are what they were at the start whenever the loop over the
    rows comes to its end. *)
Lemma count_labels_unchanged (X_train : ndarray) (Y_train : labels)
    (p : pattern) (labels_count : pyseq) :
  count_labels X_train Y_train p = Ok labels_count ->
  labels_count = PyTuple [0; 0].
Proof.
  unfold count_labels.
  destruct (getitem (shape X_train) 0) as [nrows|]; [|discriminate].
  cbn [bind].
  apply (for_in_invariant _ (fun s => s = PyTuple [0; 0])); [|reflexivity].
  intros i s s' _ -> H. unfold count_row in H.
  destruct (row_is_valid X_train p i) as [[|]|];
    cbn [bind] in H; try (destruct H; discriminate).
  - destruct (label_at Y_train i) as [y|];
      cbn [bind] in H; try (destruct H; discriminate).
    destruct (truthy y);
      [ destruct (iadd_item (PyTuple [0; 0]) 1 1) as [c|] eqn:E
      | destruct (iadd_item (PyTuple [0; 0]) 0 0) as [c|] eqn:E ];
      try (now apply iadd_item_tuple in E);
      cbn [bind] in H; destruct H; discriminate.
  - destruct H as [H|H]; congruence.
Qed.

(** The evaluation never returns a label. *)
Lemma extent_target_never_label (self : LazyFCA) (X_train : ndarray)
    (Y_train : labels) (p : pattern) (b : bool) :
  _compute_extent_target self X_train Y_train p <> Ok (Some b).
Proof.
  unfold _compute_extent_target.
  destruct (count_labels X_train Y_train p) as [c|] eqn:E; [|discriminate].
  apply count_labels_unchanged in E. subst c. cbn [bind].
  rewrite extent_verdict_start.
  destruct (0 <? min_extent_size self); discriminate.
Qed.

(** ** The scan of one query *)

(** A round of the scan that does not raise leaves the variables alone. *)
Lemma scan_row_unchanged (self : LazyFCA) (x : row) (tr : row * Z)
    (st st' : scan_state) :
  target_count st = PyTuple [0; 0] ->
  scan_row self x tr st = Ok (Next st') \/ scan_row self x tr st = Ok (Break st') ->
  st' = st.
Proof.
  intros Htc H. destruct tr as [t y]. unfold scan_row in H.
  destruct (_compute_instersection self x t) as [p|];
    cbn [bind] in H; [|destruct H; discriminate].
  destruct (_compute_extent_target self (Arr1 t) (LScalar y) p)
    as [[b|]|] eqn:E; cbn [bind] in H.
  - now apply extent_target_never_label in E.
  - simpl in H. destruct H as [H|H]; congruence.
  - destruct H; discriminate.
Qed.

(** The scan ends, when it ends, where it started: no vote counted, the
    stopping counter still 0. *)
Lemma scan_unchanged (self : LazyFCA) (X_train : list row) (Y_train : list Z)
    (x : row) (st : scan_state) :
  scan self X_train Y_train x = Ok st -> st = scan_start.
Proof.
  unfold scan.
  apply (for_in_invariant _ (fun s => s = scan_start)); [|reflexivity].
  intros tr s s' _ -> H.
  now apply (scan_row_unchanged self x tr scan_start s').
Qed.



(** ** After the scan *)

(** From the variables the scan leaves, only [None] is yielded and the
    confidence log is not touched. *)
Lemma resolve_start (self : LazyFCA) (confidence : bool) (g : gstate) :
  resolve self confidence scan_start g
  = ({| yielded := yielded g ++ [None]; log := log g |}, Ok tt).
Proof.
  unfold resolve, scan_start. cbn -[Z.leb].
  unfold gbind at 1. cbn -[Z.leb].
  now destruct (check_number self <=? 0).
Qed.

Lemma predict_row_cases (self : LazyFCA) (X_train : list row)
    (Y_train : list Z) (confidence : bool) (x : row) (g : gstate) :
  (exists e, scan self X_train Y_train x = Raise e /\
     predict_row self X_train Y_train confidence x g = (g, Raise e)) \/
  (scan self X_train Y_train x = Ok scan_start /\
   predict_row self X_train Y_train confidence x g
   = ({| yielded := yielded g ++ [None]; log := log g |}, Ok tt)).
Proof.
  unfold predict_row, gbind, lift.
  destruct (scan self X_train Y_train x) as [st|e] eqn:E.
  - right. apply scan_unchanged in E. subst st.
    split; [reflexivity|]. apply resolve_start.
  - left. now exists e.
Qed.

(** The loop over the queries yields [None] for the queries it gets
    through and never writes to the confidence log. *)
Lemma gfor_predict_rows (self : LazyFCA) (X_train : list row)
    (Y_train : list Z) (confidence : bool) (X : list row) (g : gstate) :
  exists n,
    (n <= length X)%nat /\
    yielded (fst (gfor X (predict_row self X_train Y_train confidence) g))
    = yielded g ++ repeat None n /\
    log (fst (gfor X (predict_row self X_train Y_train confidence) g)) = log g /\
    (snd (gfor X (predict_row self X_train Y_train confidence) g) = Ok tt ->
     n = length X).
Proof.
  revert g. induction X as [|x X IH]; intros g.
  - exists O. simpl. rewrite app_nil_r. auto.
  - cbn [gfor]. unfold gbind.
    destruct (predict_row_cases self X_train Y_train confidence x g)
      as [(e & _ & ->)|(_ & ->)].
    + exists O. simpl. rewrite app_nil_r.
      repeat split; auto; try lia. discriminate.
    + destruct (IH {| yielded := yielded g ++ [None]; log := log g |})
        as (n & Hn & Hy & Hl & Hok).
      exists (S n). simpl length. repeat split.
      * lia.
      * rewrite Hy. simpl. now rewrite <- app_assoc.
      * exact Hl.
      * intros H. now rewrite (Hok H).
Qed.

(** ** Which exceptions can come out *)









Lemma binarise_two (c0 c1 : Z) (Y_train : list Z) :
  exists Y', binarise [c0; c1] Y_train = Ok Y' /\
             length Y' = length Y_train.
Proof.
  unfold binarise. simpl.
  destruct (negb (in_01 c0) || negb (in_01 c1)); eexists; split;
    try reflexivity.
  apply length_map.
Qed.

Lemma class_test (classes : list Z) :
  (length classes <? 2)%nat || (2 <? length classes)%nat = false
  <-> length classes = 2%nat.
Proof.
  rewrite orb_false_iff, !Nat.ltb_ge. lia.
Qed.

Lemma length_two {A} (l : list A) :
  length l = 2%nat -> exists a b, l = [a; b].
Proof.
  destruct l as [|a [|b [|c l]]]; try discriminate. eauto.
Qed.

Lemma n_classes_two (self : LazyFCA) :
  n_classes self = Some 2%nat ->
  exists c0 c1, classes_ self = Some [c0; c1].
Proof.
  unfold n_classes. destruct (classes_ self) as [classes|]; [|discriminate].
  intros [= H]. destruct (length_two _ H) as (c0 & c1 & ->). eauto.
Qed.

(** [predict] behind the class test. *)
Lemma predict_body_two (self : LazyFCA) (X X_train : list row)
    (Y_train : list Z) (confidence : bool) :
  n_classes self = Some 2%nat ->
  exists Y',
    length Y' = length Y_train /\
    predict_body self X X_train Y_train confidence
    = {| outcomes :=
           yielded (fst (gfor X (predict_row self X_train Y' confidence)
                              {| yielded := []; log := [] |}));
         ending :=
           snd (gfor X (predict_row self X_train Y' confidence)
                     {| yielded := []; log := [] |});
         after :=
           set_confidence_ self
             (log (fst (gfor X (predict_row self X_train Y' confidence)
                             {| yielded := []; log := [] |}))) |}.
Proof.
  intros H2. destruct (n_classes_two self H2) as (c0 & c1 & Hc).
  unfold predict_body. rewrite Hc. cbn [length Nat.ltb Nat.leb orb].
  destruct (binarise_two c0 c1 Y_train) as (Y' & -> & HY').
  exists Y'. split; [exact HY'|].
  now destruct (gfor X (predict_row self X_train Y' confidence) _).
Qed.

(** [predict] stopped at the class test: by [len] when there are no
    classes, by the test when they are not two.  Nothing is yielded and the
    estimator is left as it is. *)
Lemma predict_body_not_two (self : LazyFCA) (X X_train : list row)
    (Y_train : list Z) (confidence : bool) :
  n_classes self <> Some 2%nat ->
  predict_body self X X_train Y_train confidence
  = {| outcomes := [];
       ending := Raise (match classes_ self with
                        | None => TypeError
                        | Some _ => ValueError
                        end);
       after := self |}.
Proof.
  unfold n_classes, predict_body.
  destruct (classes_ self) as [classes|]; [|reflexivity].
  cbn [option_map]. intros H.
  destruct ((length classes <? 2)%nat || (2 <? length classes)%nat) eqn:E;
    [reflexivity|].
  apply class_test in E. congruence.
Qed.

Lemma n_classes_dec (self : LazyFCA) :
  {n_classes self = Some 2%nat} + {n_classes self <> Some 2%nat}.
Proof.
  destruct (n_classes self) as [n|]; [|right; discriminate].
  destruct (Nat.eq_dec n 2) as [->|H]; [now left|right; congruence].
Qed.


(** ** The validators and the first lines of [predict] *)

Lemma convert_row_error (to_float : string -> option Q) (r : row) (e : exn) :
  convert_row to_float r = Raise e -> e = ValueError.
Proof.
  induction r as [|v r IH]; cbn [convert_row]; [discriminate|].
  destruct v as [s|q]; cbn [convert_cell].
  - destruct (to_float s); cbn [bind]; [|congruence].
    destruct (convert_row to_float r); cbn [bind]; [discriminate|].
    intros [= <-]. now apply IH.
  - cbn [bind]. destruct (convert_row to_float r); cbn [bind];
      [discriminate|]. intros [= <-]. now apply IH.
Qed.

Lemma convert_rows_error (to_float : string -> option Q) (X : list row)
    (e : exn) :
  convert_rows to_float X = Raise e -> e = ValueError.
Proof.
  induction X as [|r X IH]; cbn [convert_rows]; [discriminate|].
  destruct (convert_row to_float r) eqn:E; cbn [bind].
  - destruct (convert_rows to_float X); cbn [bind]; [discriminate|].
    intros [= <-]. now apply IH.
  - intros [= <-]. now apply convert_row_error in E.
Qed.

Lemma check_array_error (to_float : string -> option Q) (X : list row)
    (e : exn) :
  check_array to_float X = Raise e -> e = ValueError.
Proof.
  unfold check_array. destruct X as [|r X]; [congruence|].
  destruct ((length r =? 0)%nat || _); [congruence|].
  apply convert_rows_error.
Qed.

Lemma check_X_y_error (to_float : string -> option Q) (X : list row)
    (y : list Z) (e : exn) :
  check_X_y to_float X y = Raise e -> e = ValueError.
Proof.
  unfold check_X_y.
  destruct (check_array to_float X) as [X'|e'] eqn:E; cbn [bind].
  - destruct (length X' =? length y)%nat; congruence.
  - intros [= <-]. now apply check_array_error in E.
Qed.

Lemma check_X_y_labels (to_float : string -> option Q) (X : list row)
    (y : list Z) (v : list row * list Z) :
  check_X_y to_float X y = Ok v ->
  check_array to_float X = Ok (fst v) /\ snd v = y /\
  length (fst v) = length y.
Proof.
  unfold check_X_y.
  destruct (check_array to_float X) as [X'|e']; cbn [bind]; [|discriminate].
  destruct (Nat.eqb_spec (length X') (length y)); [|discriminate].
  intros [= <-]. now repeat split.
Qed.



(** [check_array] returns as many rows as it was given. *)
Lemma convert_rows_length (to_float : string -> option Q) (X X' : list row) :
  convert_rows to_float X = Ok X' -> length X' = length X.
Proof.
  revert X'. induction X as [|r X IH]; intros X'; cbn [convert_rows].
  - now intros [= <-].
  - destruct (convert_row to_float r); cbn [bind]; [|discriminate].
    destruct (convert_rows to_float X) as [X''|]; cbn [bind]; [|discriminate].
    intros [= <-]. simpl. now rewrite (IH X'' eq_refl).
Qed.

Lemma check_array_length (to_float : string -> option Q) (X X' : list row) :
  check_array to_float X = Ok X' -> length X' = length X.
Proof.
  unfold check_array. destruct X as [|r X]; [discriminate|].
  destruct ((length r =? 0)%nat || _); [discriminate|].
  apply convert_rows_length.
Qed.

(** Arrays of numbers with rows of one length pass [check_array] as they
    are. *)
Lemma convert_row_of_numbers (to_float : string -> option Q) (r : row) :
  forallb is_num r = true -> convert_row to_float r = Ok r.
Proof.
  induction r as [|v r IH]; [reflexivity|]. cbn [forallb convert_row].
  intros H. apply andb_true_iff in H. destruct H as (Hv & Hr).
  destruct v; [discriminate|]. cbn [convert_cell bind]. now rewrite IH.
Qed.

Lemma prepare_error (to_float : string -> option Q) (self : LazyFCA)
    (X : list row) (X_train : option (list row)) (Y_train : option (list Z))
    (e : exn) :
  prepare to_float self X X_train Y_train = Raise e ->
  e = ValueError \/ e = Py.AttributeError.
Proof.
  assert (Hfit : (Xs <- attribute (X_ self) ;; ys <- attribute (y_ self) ;;
                  Ok (self, X, Xs, ys)) = Raise e ->
                 e = ValueError \/ e = Py.AttributeError).
  { destruct (X_ self), (y_ self); cbn; intros [= <-]; now right. }
  unfold prepare. destruct X_train as [Xt|], Y_train as [Yt|]; auto.
  destruct (check_X_y to_float Xt Yt) as [v|e1] eqn:E1; cbn [bind].
  - destruct (check_array to_float X) as [X'|e2] eqn:E2; cbn [bind];
      [discriminate|].
    intros [= <-]. left. now apply check_array_error in E2.
  - intros [= <-]. left. now apply check_X_y_error in E1.
Qed.

(** What the first lines leave of the estimator: everything but
    [classes_]. *)
Lemma prepare_estimator (to_float : string -> option Q) (self : LazyFCA)
    (X : list row) (X_train : option (list row)) (Y_train : option (list Z))
    (self1 : LazyFCA) (X' Xt Yt : _) :
  prepare to_float self X X_train Y_train = Ok (self1, X', Xt, Yt) ->
  X_ self1 = X_ self /\ y_ self1 = y_ self /\
  consistency_threshold self1 = consistency_threshold self /\
  min_extent_size self1 = min_extent_size self /\
  check_number self1 = check_number self /\
  numerical_preprocessing self1 = numerical_preprocessing self /\
  confidence_ self1 = confidence_ self.
Proof.
  assert (Hfit : (Xs <- attribute (X_ self) ;; ys <- attribute (y_ self) ;;
                  Ok (self, X, Xs, ys)) = Ok (self1, X', Xt, Yt) ->
                 self1 = self).
  { destruct (X_ self), (y_ self); cbn; congruence. }
  unfold prepare. destruct X_train as [Xp|], Y_train as [Yp|];
    try (intros H; apply Hfit in H; subst self1; now repeat split).
  destruct (check_X_y to_float Xp Yp) as [v|]; cbn [bind]; [|discriminate].
  destruct (check_array to_float X) as [X''|]; cbn [bind]; [|discriminate].
  intros [= <- _ _ _]. now repeat split.
Qed.

(** With training data passed: what the first lines leave when the
    validators accept. *)
Lemma prepare_passed (to_float : string -> option Q) (self : LazyFCA)
    (X Xp : list row) (Yp : list Z) (self1 : LazyFCA) (X' Xt Yt : _) :
  prepare to_float self X (Some Xp) (Some Yp) = Ok (self1, X', Xt, Yt) ->
  check_array to_float Xp = Ok Xt /\ Yt = Yp /\ length Xt = length Yp /\
  check_array to_float X = Ok X' /\
  self1 = set_classes_ self (unique_labels Yp).
Proof.
  unfold prepare.
  destruct (check_X_y to_float Xp Yp) as [v|] eqn:E; cbn [bind];
    [|discriminate].
  destruct (check_array to_float X) as [X''|]; cbn [bind]; [|discriminate].
  destruct (check_X_y_labels _ _ _ _ E) as (H1 & H2 & H3).
  intros [= <- <- <- <-]. rewrite H2 in *. now repeat split.
Qed.

(** Without training data passed: the stored data, the estimator as it
    is. *)
Lemma prepare_stored (to_float : string -> option Q) (self : LazyFCA)
    (X : list row) (X_train : option (list row)) (Y_train : option (list Z)) :
  X_train = None \/ Y_train = None ->
  prepare to_float self X X_train Y_train
  = (Xs <- attribute (X_ self) ;; ys <- attribute (y_ self) ;;
     Ok (self, X, Xs, ys)).
Proof.
  intros [->| ->]; [reflexivity|]. now destruct X_train.
Qed.

Lemma predict_prepared (to_float : string -> option Q) (self : LazyFCA)
    (X : list row) (X_train : option (list row)) (Y_train : option (list Z))
    (confidence : bool) (self1 : LazyFCA) (X' Xt Yt : _) :
  prepare to_float self X X_train Y_train = Ok (self1, X', Xt, Yt) ->
  predict to_float self X X_train Y_train confidence
  = predict_body self1 X' Xt Yt confidence.
Proof. unfold predict. now intros ->. Qed.

Lemma predict_not_prepared (to_float : string -> option Q) (self : LazyFCA)
    (X : list row) (X_train : option (list row)) (Y_train : option (list Z))
    (confidence : bool) (e : exn) :
  prepare to_float self X X_train Y_train = Raise e ->
  predict to_float self X X_train Y_train confidence
  = {| outcomes := []; ending := Raise e; after := self |}.
Proof. unfold predict. now intros ->. Qed.


(** ** [unique_labels] *)

Lemma in_insert_label (y z : Z) (l : list Z) :
  In z (insert_label y l) <-> z = y \/ In z l.
Proof.
  induction l as [|a l IH]; simpl.
  - intuition.
  - destruct (Z.ltb_spec y a); [simpl; intuition|].
    destruct (Z.eqb_spec y a); simpl.
    + subst. intuition.
    + rewrite IH. intuition.
Qed.

(** The classes are the labels that occur. *)
Lemma in_unique_labels (z : Z) (Y : list Z) :
  In z (unique_labels Y) <-> In z Y.
Proof.
  induction Y as [|y Y IH]; simpl; [reflexivity|].
  rewrite in_insert_label, IH. intuition.
Qed.

Lemma increasing_insert_label (y : Z) (l : list Z) :
  increasing l -> increasing (insert_label y l).
Proof.
  induction l as [|a l IH]; simpl; [intuition|].
  intros (Ha & Hl).
  destruct (Z.ltb_spec y a).
  - simpl. repeat split; auto.
    intros b [<-|Hb]; [assumption|]. specialize (Ha b Hb). lia.
  - destruct (Z.eqb_spec y a); simpl; [now split|].
    split; [|now apply IH].
    intros b Hb. apply in_insert_label in Hb.
    destruct Hb as [->|Hb]; [lia|now apply Ha].
Qed.



(** What [fit] stores, when [check_X_y] accepts the data: the rows as the
    validator returns them, the labels, and the labels' classes.  The
    parameters and the confidence log are left alone. *)
Lemma fit_stores (to_float : string -> option Q) (self : LazyFCA)
    (X : list row) (y : list Z) (fitted : LazyFCA) :
  fit to_float self X y = Ok fitted ->
  (exists X', check_array to_float X = Ok X' /\ X_ fitted = Some X') /\
  y_ fitted = Some y /\
  classes_ fitted = Some (unique_labels y) /\
  consistency_threshold fitted = consistency_threshold self /\
  min_extent_size fitted = min_extent_size self /\
  check_number fitted = check_number self /\
  numerical_preprocessing fitted = numerical_preprocessing self /\
  confidence_ fitted = confidence_ self.
Proof.
  unfold fit. destruct (check_X_y to_float X y) as [v|] eqn:E; cbn [bind];
    [|discriminate].
  destruct (check_X_y_labels _ _ _ _ E) as (H1 & H2 & _).
  intros [= <-]. cbn. rewrite H2. split; [now exists (fst v)|].
  now repeat split.
Qed.

Lemma fit_error (to_float : string -> option Q) (self : LazyFCA)
    (X : list row) (y : list Z) (e : exn) :
  fit to_float self X y = Raise e -> e = ValueError.
Proof.
  unfold fit. destruct (check_X_y to_float X y) as [v|e'] eqn:E; cbn [bind];
    [discriminate|].
  intros [= <-]. now apply check_X_y_error in E.
Qed.


(** ** The decision on the counts *)

(** Fewer counted rows than [min_extent_size]: no verdict. *)
Lemma extent_verdict_small (self : LazyFCA) (c0 c1 : Z) :
  c0 + c1 < min_extent_size self ->
  extent_verdict self (PyTuple [c0; c1]) = Ok None.
Proof.
  intros H. unfold extent_verdict. simpl.
  now destruct (Z.ltb_spec (c0 + c1) (min_extent_size self)); [|lia].
Qed.

(** ** [_compute_instersection] as a recursion over the columns *)

Lemma nth_error_middle {A} (pre : list A) (a : A) (post : list A) :
  nth_error (pre ++ a :: post) (length pre) = Some a.
Proof. induction pre as [|b pre IH]; simpl; auto. Qed.

Lemma nth_error_at {A} (pre : list A) (a : A) (post : list A) (k : nat) :
  length pre = k -> nth_error (pre ++ a :: post) k = Some a.
Proof. intros <-. apply nth_error_middle. Qed.

Lemma replace_nth_middle {A} (pre : list A) (a b : A) (post : list A) :
  replace_nth (pre ++ a :: post) (length pre) b = pre ++ b :: post.
Proof.
  induction pre as [|c pre IH]; simpl; [reflexivity|]. now rewrite IH.
Qed.

Lemma setitem_middle {A} (pre : list A) (a b : A) (post : list A) :
  setitem (pre ++ a :: post) (length pre) b = Ok (pre ++ b :: post).
Proof.
  rewrite setitem_lt, replace_nth_middle; [reflexivity|].
  rewrite length_app. simpl. lia.
Qed.

(** The loop from column [length done] on, with the columns before it
    done. *)
Lemma intersection_from (self : LazyFCA) (xs : row) :
  forall (ts prex pret : row) (done : pattern),
    length prex = length done ->
    length pret = length done ->
    for_in (seq (length done) (length xs))
           (intersect_column self (prex ++ xs) (pret ++ ts))
           (done ++ map PVal xs)
    = (r <- generalise self xs ts ;; Ok (done ++ r)).
Proof.
  induction xs as [|xi xs IH]; intros ts prex pret done Hx Ht.
  - reflexivity.
  - cbn [length seq for_in map generalise].
    set (loop := for_in (seq (S (length done)) (length xs))
                        (intersect_column self (prex ++ xi :: xs)
                                          (pret ++ ts))).
    unfold intersect_column, getitem.
    rewrite (nth_error_at prex xi xs _ Hx). cbn [bind].
    destruct ts as [|ti ts].
    + assert (E : nth_error (pret ++ []) (length done) = None)
        by (apply nth_error_None; rewrite app_nil_r; lia).
      rewrite E. now destruct xi.
    + rewrite (nth_error_at pret ti ts _ Ht). cbn [bind].
      assert (Step : forall e : pvalue,
                 loop (done ++ e :: map PVal xs)
                 = (r <- generalise self xs ts ;; Ok (done ++ e :: r))).
      { intros e. subst loop.
        specialize (IH ts (prex ++ [xi]) (pret ++ [ti]) (done ++ [e])).
        rewrite !length_app in IH. cbn [length] in IH.
        rewrite !Nat.add_1_r, <- !app_assoc in IH. cbn [app] in IH.
        rewrite IH by lia.
        destruct (generalise self xs ts); cbn [bind]; [|reflexivity].
        now rewrite <- app_assoc. }
      destruct xi as [s|q]; cbn [cell_entry].
      * unfold string_entry.
        destruct (value_ne (VStr s) ti).
        -- fold (@getitem pvalue).
           change (if (length done <? length (done ++ PVal (VStr s) :: map PVal xs))%nat
                   then Ok (replace_nth (done ++ PVal (VStr s) :: map PVal xs)
                                        (length done) wildcard)
                   else Raise IndexError)
             with (setitem (done ++ PVal (VStr s) :: map PVal xs)
                           (length done) wildcard).
           rewrite setitem_middle. cbn [bind]. rewrite Step.
           now destruct (generalise self xs ts).
        -- cbn [bind]. rewrite Step. now destruct (generalise self xs ts).
      * destruct (call (numerical_preprocessing self) (VNum q) ti) as [e|e];
          cbn [bind]; [|reflexivity].
        change (if (length done <? length (done ++ PVal (VNum q) :: map PVal xs))%nat
                then Ok (replace_nth (done ++ PVal (VNum q) :: map PVal xs)
                                     (length done) e)
                else Raise IndexError)
          with (setitem (done ++ PVal (VNum q) :: map PVal xs)
                        (length done) e).
        rewrite setitem_middle. cbn [bind]. rewrite Step.
        now destruct (generalise self xs ts).
Qed.

Lemma compute_intersection_eq (self : LazyFCA) (x t : row) :
  _compute_instersection self x t = generalise self x t.
Proof.
  unfold _compute_instersection, range.
  pose proof (intersection_from self x t [] [] [] eq_refl eq_refl) as H.
  cbn [length app] in H. rewrite H.
  now destruct (generalise self x t).
Qed.




(** ** Claims *)

(** C1, as the code has it.  With a policy of the caller's, the first
    query of the sample is generalised with the first training row into the
    pattern ((1.5, 1.0)).  [predict] then gives the extent evaluation that
    one training row and its label, not the training set: the evaluation
    asks for the second dimension of the row and the run stops with
    [IndexError] before any outcome, so no row of the training set is
    tested for membership. *)
Theorem C1_extent_evaluated_on_one_row :
  forall to_float : string -> option Q,
  _compute_instersection sample_estimator_custom sample_query_a [VNum 1]
    = Ok [PTuple (BVal (VNum (3 # 2))) (BVal (VNum 1))] /\
  _compute_extent_target sample_estimator_custom (Arr1 [VNum 1]) (LScalar 0)
    [PTuple (BVal (VNum (3 # 2))) (BVal (VNum 1))] = Raise IndexError /\
  scan sample_estimator_custom sample_X_train sample_Y_train sample_query_a
    = Raise IndexError /\
  outcomes (predict to_float sample_estimator_custom [sample_query_a]
              (Some sample_X_train) (Some sample_Y_train) false) = [] /\
  ending (predict to_float sample_estimator_custom [sample_query_a]
            (Some sample_X_train) (Some sample_Y_train) false)
    = Raise IndexError.
Proof. intros to_float. repeat split; reflexivity. Qed.

(** C2, as the code has it.  On the two queries of the sample the
    generator raises [TypeError] at its first advance: two query rows, no
    outcome.  And where the statements after the scan do find a winner
    (votes (1, 0)), they yield the label and then [None]: two outcomes for
    one query. *)
Theorem C2_outcomes_do_not_match_queries :
  forall to_float : string -> option Q,
  outcomes (predict to_float sample_estimator [sample_query_a; sample_query_b]
              (Some sample_X_train) (Some sample_Y_train) false) = [] /\
  ending (predict to_float sample_estimator [sample_query_a; sample_query_b]
            (Some sample_X_train) (Some sample_Y_train) false)
    = Raise TypeError /\
  resolve (set_classes_ sample_estimator [0; 1]) false
    {| number_checked := 0; target_count := PyTuple [1; 0] |}
    {| yielded := []; log := [] |}
  = ({| yielded := [Some 0; None]; log := [] |}, Ok tt).
Proof. intros to_float. repeat split; reflexivity. Qed.



Lemma prepare_accepts (to_float : string -> option Q) (self : LazyFCA)
    (X Xp : list row) (Yp : list Z) (v : list row * list Z) (X' : list row) :
  check_X_y to_float Xp Yp = Ok v ->
  check_array to_float X = Ok X' ->
  prepare to_float self X (Some Xp) (Some Yp)
  = Ok (set_classes_ self (unique_labels Yp), X', fst v, Yp).
Proof.
  intros Hv HX. unfold prepare. rewrite Hv, HX. cbn [bind].
  destruct (check_X_y_labels _ _ _ _ Hv) as (_ & -> & _). reflexivity.
Qed.

Lemma prepare_rejects (to_float : string -> option Q) (self : LazyFCA)
    (X Xp : list row) (Yp : list Z) :
  (exists e, check_X_y to_float Xp Yp = Raise e) \/
  (exists e, check_array to_float X = Raise e) ->
  prepare to_float self X (Some Xp) (Some Yp) = Raise ValueError.
Proof.
  unfold prepare.
  destruct (check_X_y to_float Xp Yp) as [v|e1] eqn:E1; cbn [bind].
  - intros [(e & He)|(e & He)]; [discriminate|].
    rewrite He. cbn [bind]. now rewrite (check_array_error _ _ _ He).
  - intros _. now rewrite (check_X_y_error _ _ _ _ E1).
Qed.



(** C5, as the code has it.  One training row, matching the pattern, and
    [min_extent_size = 2]: the extent has fewer rows than the minimum, yet
    the evaluation does not return "undecided"; counting the row raises
    [TypeError]. *)
Theorem C5_small_extent_raises :
  row_is_valid (Arr2 [[VNum 1]]) [PTuple (BVal (VNum 0)) (BVal (VNum 2))] 0
    = Ok true /\
  min_extent_size default_estimator = 2 /\
  _compute_extent_target default_estimator (Arr2 [[VNum 1]]) (LArray [1])
    [PTuple (BVal (VNum 0)) (BVal (VNum 2))] = Raise TypeError.
Proof. repeat split; reflexivity. Qed.

(** C6, as the code has it.  Two training rows, both valid for the
    pattern, one of each label, and [min_extent_size = 2]: the extent is
    tied and large enough, and the evaluation does not return "undecided";
    counting the first row raises [TypeError].  With [min_extent_size = 0]
    and a pattern that no row matches, the counts are tied at 0 and the
    extent is large enough: the evaluation divides by zero. *)
Theorem C6_tied_extent_raises :
  row_is_valid (Arr2 [[VNum 1]; [VNum 2]])
    [PTuple (BVal (VNum 0)) (BVal (VNum 3))] 0 = Ok true /\
  row_is_valid (Arr2 [[VNum 1]; [VNum 2]])
    [PTuple (BVal (VNum 0)) (BVal (VNum 3))] 1 = Ok true /\
  min_extent_size default_estimator = 2 /\
  _compute_extent_target default_estimator (Arr2 [[VNum 1]; [VNum 2]])
    (LArray [0; 1]) [PTuple (BVal (VNum 0)) (BVal (VNum 3))]
  = Raise TypeError /\
  row_is_valid (Arr2 [[VStr "ab"]]) [PVal (VStr "cd")] 0 = Ok false /\
  min_extent_size (estimator_with (9 # 10) 0) <= 0 + 0 /\
  _compute_extent_target (estimator_with (9 # 10) 0) (Arr2 [[VStr "ab"]])
    (LArray [1]) [PVal (VStr "cd")] = Raise ZeroDivisionError.
Proof. repeat split; try reflexivity; try (simpl; lia). Qed.

(** C7, as the code has it.  A row with a numeric column cannot be
    generalised with itself under a built-in policy: the policy is reached
    through the estimator as a bound method, the function behind it takes
    two arguments and is handed three, and the call raises [TypeError]
    where the interval of that one number was due. *)
Theorem C7_numeric_self_generalisation_raises :
  forall (self : LazyFCA) (f : def2) (x : row),
    numerical_preprocessing self = BoundMethod f ->
    (exists q, In (VNum q) x) ->
    _compute_instersection self x x = Raise TypeError.
Proof.
  intros self f x Hf Hnum.
  now apply (intersection_numeric_raises self f x x Hf Hnum).
Qed.

Lemma C7_numeric_self_generalisation_raises_witness :
  _compute_instersection default_estimator [VNum 1] [VNum 1]
    = Raise TypeError.
Proof.
  apply (C7_numeric_self_generalisation_raises default_estimator
           _basic_interval).
  - reflexivity.
  - exists 1%Q. left. reflexivity.
Defined.

(** The string half of the same property holds: see
    [intersection_self_strings]; and the basic policy, were it given its two
    arguments, would return the interval of the one number: see
    [basic_interval_same]. *)

(** Votes with a winner and a stopping counter at 0: asked for a
    confidence, the statements after the scan divide by zero. *)
Lemma resolve_divides_by_zero (self : LazyFCA) (t0 t1 : Z) (g : gstate) :
  t0 <> t1 ->
  check_number self <= t0 + t1 ->
  resolve self true
    {| number_checked := 0; target_count := PyTuple [t0; t1] |} g
  = (g, Raise ZeroDivisionError).
Proof.
  intros Hne Hck. unfold resolve. cbn -[Z.leb Z.ltb].
  unfold gbind at 1. cbn -[Z.leb Z.ltb].
  unfold gbind at 1. cbn -[Z.leb Z.ltb].
  destruct (Z.leb_spec (check_number self) (t0 + t1)); [|lia].
  destruct (Z.ltb_spec t1 t0).
  - reflexivity.
  - destruct (Z.ltb_spec t0 t1); [reflexivity|lia].
Qed.

(** Whatever it is given, [predict] yields no label and records no
    confidence. *)
Lemma predict_body_no_label (self : LazyFCA) (X X_train : list row)
    (Y_train : list Z) (confidence : bool) :
  Forall (fun o => o = None)
         (outcomes (predict_body self X X_train Y_train confidence)) /\
  (length (outcomes (predict_body self X X_train Y_train confidence))
   <= length X)%nat /\
  (confidence_ (after (predict_body self X X_train Y_train confidence)) = []
   \/ (ending (predict_body self X X_train Y_train confidence)
        = Raise ValueError \/
       ending (predict_body self X X_train Y_train confidence)
        = Raise TypeError) /\
      confidence_ (after (predict_body self X X_train Y_train confidence))
        = confidence_ self).
Proof.
  destruct (n_classes_dec self) as [H2|H2].
  - destruct (predict_body_two self X X_train Y_train confidence H2)
      as (Y' & _ & ->).
    destruct (gfor_predict_rows self X_train Y' confidence X
                {| yielded := []; log := [] |}) as (n & Hn & Hy & Hl & _).
    cbn [outcomes ending after]. rewrite Hy, Hl. simpl.
    repeat split.
    + apply Forall_forall. intros o Ho. now apply repeat_spec in Ho.
    + now rewrite repeat_length.
    + now left.
  - rewrite (predict_body_not_two _ _ _ _ _ H2). cbn [outcomes ending after].
    repeat split; [constructor|apply Nat.le_0_l|].
    right. split; [|reflexivity]. destruct (classes_ self); auto.
Qed.

(** C8, as the code has it.  On the sample, asked for confidences,
    the run stops with [TypeError] and the log is empty where a confidence
    of 1 was due.  No input does better: after any call the log is empty,
    or the call stopped before it emptied the log (a validator or the class
    test raised [ValueError], there were no stored data and it raised
    [AttributeError], or there were no classes and it raised [TypeError])
    and left it as it was.  Even from votes with a winner, the confidence
    would be a quotient by the stopping counter, which is 0. *)
Theorem C8_no_confidence_recorded :
  forall to_float : string -> option Q,
  (ending (predict to_float sample_estimator [sample_query_a]
             (Some sample_X_train) (Some sample_Y_train) true)
   = Raise TypeError /\
   confidence_ (after (predict to_float sample_estimator [sample_query_a]
                         (Some sample_X_train) (Some sample_Y_train) true))
     = []) /\
  (forall self X X_train Y_train confidence,
      confidence_ (after (predict to_float self X X_train Y_train confidence))
      = []
      \/ (ending (predict to_float self X X_train Y_train confidence)
           = Raise ValueError \/
          ending (predict to_float self X X_train Y_train confidence)
           = Raise Py.AttributeError \/
          ending (predict to_float self X X_train Y_train confidence)
           = Raise TypeError) /\
         confidence_
           (after (predict to_float self X X_train Y_train confidence))
           = confidence_ self) /\
  resolve (set_classes_ sample_estimator [0; 1]) true
    {| number_checked := 0; target_count := PyTuple [1; 0] |}
    {| yielded := []; log := [] |}
  = ({| yielded := []; log := [] |}, Raise ZeroDivisionError).
Proof.
  intros to_float.
  split; [split; reflexivity|]. split; [|reflexivity].
  intros self X X_train Y_train confidence.
  destruct (prepare to_float self X X_train Y_train)
    as [[[[self1 X'] Xt] Yt]|e] eqn:P.
  - rewrite (predict_prepared _ _ _ _ _ _ _ _ _ _ P).
    destruct (prepare_estimator _ _ _ _ _ _ _ _ _ P)
      as (_ & _ & _ & _ & _ & _ & Hlog).
    rewrite <- Hlog.
    destruct (predict_body_no_label self1 X' Xt Yt confidence)
      as (_ & _ & [H|([H1|H1] & H2)]); [now left|right|right];
      (split; [tauto|exact H2]).
  - rewrite (predict_not_prepared _ _ _ _ _ _ _ P). cbn [ending after].
    right. split; [|reflexivity].
    destruct (prepare_error _ _ _ _ _ _ P) as [-> | ->]; auto.
Qed.

(** ** Counting into a tuple *)

Lemma seq_setitem_tuple (items : list Z) (k : nat) (v : Z) :
  seq_setitem (PyTuple items) k v = Raise TypeError.
Proof. reflexivity. Qed.

(** A row found valid, with a label: counting it raises. *)
Lemma count_row_valid (X_train : ndarray) (Y_train : labels) (p : pattern)
    (i : nat) (y : Z) :
  row_is_valid X_train p i = Ok true ->
  label_at Y_train i = Ok y ->
  count_row X_train Y_train p i (PyTuple [0; 0]) = Raise TypeError.
Proof.
  intros Hv Hy. unfold count_row. rewrite Hv. cbn [bind]. rewrite Hy.
  cbn [bind]. now destruct (truthy y).
Qed.

Lemma count_row_invalid (X_train : ndarray) (Y_train : labels) (p : pattern)
    (i : nat) (c : pyseq) :
  row_is_valid X_train p i = Ok false ->
  count_row X_train Y_train p i c = Ok (Next c).
Proof. intros Hv. unfold count_row. now rewrite Hv. Qed.

(** The first valid row stops the count. *)
Lemma count_labels_first_valid (rows : list row) (Y_train : labels)
    (p : pattern) (i : nat) (y : Z) :
  (i < length rows)%nat ->
  (forall k, (k < i)%nat -> row_is_valid (Arr2 rows) p k = Ok false) ->
  row_is_valid (Arr2 rows) p i = Ok true ->
  label_at Y_train i = Ok y ->
  count_labels (Arr2 rows) Y_train p = Raise TypeError.
Proof.
  intros Hi Hbefore Hv Hy. unfold count_labels.
  change (getitem (shape (Arr2 rows)) 0) with (@Ok nat (length rows)).
  cbn [bind]. rewrite (range_split i (length rows) Hi).
  apply (for_in_raise_at _ (fun c => c = PyTuple [0; 0])).
  - intros k c Hk ->. apply in_range in Hk.
    exists (PyTuple [0; 0]). split; [|reflexivity].
    apply count_row_invalid. now apply Hbefore.
  - intros c ->. now apply (count_row_valid _ _ _ _ y).
  - reflexivity.
Qed.

(** C9.  The label counts of the extent evaluation and the vote counts of
    the scan are tuples, and a tuple refuses item assignment.  So the first
    training row the evaluation finds valid makes it raise [TypeError]
    instead of counting the row, and in the scan a verdict that is a label
    raises [TypeError] instead of counting the vote. *)
Theorem C9_counts_are_immutable_tuples :
  forall (self : LazyFCA) (rows : list row) (Y_train : labels) (p : pattern)
         (i : nat) (y : Z) (b : bool) (st : scan_state),
    (i < length rows)%nat ->
    (forall k, (k < i)%nat -> row_is_valid (Arr2 rows) p k = Ok false) ->
    row_is_valid (Arr2 rows) p i = Ok true ->
    label_at Y_train i = Ok y ->
    target_count st = PyTuple [0; 0] ->
    (forall items k v, seq_setitem (PyTuple items) k v = Raise TypeError) /\
    count_row (Arr2 rows) Y_train p i (PyTuple [0; 0]) = Raise TypeError /\
    _compute_extent_target self (Arr2 rows) Y_train p = Raise TypeError /\
    vote self (Some b) st = Raise TypeError.
Proof.
  intros self rows Y_train p i y b st Hi Hbefore Hv Hy Hst.
  split; [exact seq_setitem_tuple|].
  split; [now apply (count_row_valid _ _ _ _ y)|].
  split.
  - unfold _compute_extent_target.
    now rewrite (count_labels_first_valid rows Y_train p i y).
  - unfold vote. rewrite Hst. now destruct b.
Qed.

Lemma C9_counts_are_immutable_tuples_witness :
  count_row (Arr2 [[VStr "ab"]; [VStr "cd"]]) (LArray [0; 1])
    [PVal (VStr "cd")] 1 (PyTuple [0; 0]) = Raise TypeError /\
  _compute_extent_target default_estimator
    (Arr2 [[VStr "ab"]; [VStr "cd"]]) (LArray [0; 1]) [PVal (VStr "cd")]
    = Raise TypeError /\
  vote default_estimator (Some true) scan_start = Raise TypeError.
Proof.
  destruct (C9_counts_are_immutable_tuples default_estimator
              [[VStr "ab"]; [VStr "cd"]] (LArray [0; 1]) [PVal (VStr "cd")]
              1%nat 1 true scan_start) as (_ & H1 & H2 & H3).
  - simpl. lia.
  - intros k Hk. assert (k = 0%nat) as -> by lia. reflexivity.
  - reflexivity.
  - reflexivity.
  - reflexivity.
  - exact (conj H1 (conj H2 H3)).
Defined.




(** * Further properties *)

(** ** Loops, again *)

(** A loop whose every round goes on with the variables as they are ends
    with them. *)
Lemma for_in_skip {A S} (body : A -> S -> result (flow S)) (xs : list A)
    (s : S) :
  (forall a, In a xs -> body a s = Ok (Next s)) ->
  for_in xs body s = Ok s.
Proof.
  induction xs as [|a xs IH]; intros H; simpl; [reflexivity|].
  rewrite (H a (or_introl eq_refl)). apply IH. intros b Hb. apply H. now right.
Qed.

(** ** [_compute_instersection], column by column *)

(** X1.  The loop over the indices computes the generalisation column by
    column: every string column gives the shared string or the wildcard,
    every numeric column what the policy returns; the exception of the
    first column that fails comes out; and a training row shorter than the
    query gives [IndexError]. *)
Theorem intersection_is_columnwise :
  forall (self : LazyFCA) (x t : row),
    _compute_instersection self x t = generalise self x t.
Proof. exact compute_intersection_eq. Qed.

Lemma generalise_entries (self : LazyFCA) (x : row) :
  forall (t : row) (p : pattern),
    generalise self x t = Ok p ->
    length p = length x /\
    forall i xi ti,
      nth_error x i = Some xi -> nth_error t i = Some ti ->
      exists e, nth_error p i = Some e /\ cell_entry self xi ti = Ok e.
Proof.
  induction x as [|x0 x IH]; intros t p H.
  - injection H as <-. split; [reflexivity|]. now intros [|i].
  - destruct t as [|t0 t]; [discriminate|]. cbn [generalise] in H.
    destruct (cell_entry self x0 t0) as [e0|] eqn:E0; [|discriminate].
    cbn [bind] in H.
    destruct (generalise self x t) as [rest|] eqn:Er; [|discriminate].
    injection H as <-. destruct (IH t rest Er) as (Hl & Hi).
    split; [simpl; now rewrite Hl|].
    intros [|i] xi ti Hx Ht; simpl in *.
    + injection Hx as <-. injection Ht as <-. now exists e0.
    + now apply Hi.
Qed.

(** X2.  Whatever the policy, a generalisation that succeeds has the length of
    the query, and each of its entries is the entry of its column: for a
    string cell the cell itself if the training cell equals it and the
    wildcard otherwise, for a numeric cell what the policy returned. *)
Theorem intersection_entries :
  forall (self : LazyFCA) (x t : row) (p : pattern),
    _compute_instersection self x t = Ok p ->
    length p = length x /\
    forall i xi ti,
      nth_error x i = Some xi -> nth_error t i = Some ti ->
      exists e, nth_error p i = Some e /\ cell_entry self xi ti = Ok e.
Proof.
  intros self x t p H. rewrite compute_intersection_eq in H.
  now apply generalise_entries.
Qed.

Lemma intersection_entries_witness :
  length [PVal (VStr "a"); wildcard; PTuple (BVal (VNum 1)) (BVal (VNum 2))]
  = length [VStr "a"; VStr "b"; VNum 1] /\
  forall i xi ti,
    nth_error [VStr "a"; VStr "b"; VNum 1] i = Some xi ->
    nth_error [VStr "a"; VStr "c"; VNum 2] i = Some ti ->
    exists e,
      nth_error [PVal (VStr "a"); wildcard;
                 PTuple (BVal (VNum 1)) (BVal (VNum 2))] i = Some e /\
      cell_entry sample_estimator_custom xi ti = Ok e.
Proof.
  apply (intersection_entries sample_estimator_custom
           [VStr "a"; VStr "b"; VNum 1] [VStr "a"; VStr "c"; VNum 2]).
  reflexivity.
Defined.

Lemma generalise_custom (self : LazyFCA) (g : value -> value -> pvalue)
    (x : row) :
  numerical_preprocessing self = Function g ->
  forall t : row,
    generalise self x t
    = if (length x <=? length t)%nat
      then Ok (map (fun xt => entry_with g (fst xt) (snd xt)) (combine x t))
      else Raise IndexError.
Proof.
  intros Hg. induction x as [|x0 x IH]; intros t; [reflexivity|].
  destruct t as [|t0 t]; [reflexivity|].
  cbn [generalise length combine map fst snd]. rewrite IH.
  change (S (length x) <=? S (length t))%nat
    with (length x <=? length t)%nat.
  assert (E : cell_entry self x0 t0 = Ok (entry_with g x0 t0)).
  { destruct x0; cbn [cell_entry entry_with]; [reflexivity|].
    now rewrite Hg. }
  rewrite E. cbn [bind]. now destruct (length x <=? length t)%nat.
Qed.

(** X3.  With a policy of the caller's the generalisation succeeds exactly
    when the training row has all the columns of the query, and then it is
    the list of the columns' entries (extra columns of the training row are
    ignored); a shorter training row gives [IndexError]. *)
Theorem intersection_with_custom_policy :
  forall (self : LazyFCA) (g : value -> value -> pvalue) (x t : row),
    numerical_preprocessing self = Function g ->
    _compute_instersection self x t
    = if (length x <=? length t)%nat
      then Ok (map (fun xt => entry_with g (fst xt) (snd xt)) (combine x t))
      else Raise IndexError.
Proof.
  intros self g x t Hg. rewrite compute_intersection_eq.
  now apply generalise_custom.
Qed.

Lemma intersection_with_custom_policy_witness :
  _compute_instersection sample_estimator_custom
    [VStr "a"; VNum 1] [VStr "b"; VNum 2; VNum 3]
  = Ok [wildcard; PTuple (BVal (VNum 1)) (BVal (VNum 2))] /\
  _compute_instersection sample_estimator_custom [VStr "a"; VNum 1] [VStr "b"]
  = Raise IndexError.
Proof.
  split.
  - apply (intersection_with_custom_policy sample_estimator_custom
             pair_policy [VStr "a"; VNum 1] [VStr "b"; VNum 2; VNum 3]).
    reflexivity.
  - apply (intersection_with_custom_policy sample_estimator_custom
             pair_policy [VStr "a"; VNum 1] [VStr "b"]).
    reflexivity.
Defined.

(** ** [predict] as a whole *)

Lemma predict_body_outcomes (self : LazyFCA) (X X_train : list row)
    (Y_train : list Z) (confidence : bool) :
  outcomes (predict_body self X X_train Y_train confidence)
  = repeat None
      (length (outcomes (predict_body self X X_train Y_train confidence))) /\
  (length (outcomes (predict_body self X X_train Y_train confidence))
   <= length X)%nat /\
  (ending (predict_body self X X_train Y_train confidence) = Ok tt ->
   length (outcomes (predict_body self X X_train Y_train confidence))
   = length X).
Proof.
  destruct (n_classes_dec self) as [H2|H2].
  - destruct (predict_body_two self X X_train Y_train confidence H2)
      as (Y' & _ & ->).
    destruct (gfor_predict_rows self X_train Y' confidence X
                {| yielded := []; log := [] |}) as (n & Hn & Hy & _ & Hok).
    cbn [outcomes ending]. rewrite Hy. cbn [yielded app].
    rewrite repeat_length. repeat split; auto.
  - rewrite (predict_body_not_two _ _ _ _ _ H2). cbn [outcomes ending].
    repeat split; [apply Nat.le_0_l|discriminate].
Qed.

(** X4.  No call of [predict] ever yields a label: every outcome is [None].
    There is at most one outcome per query, and a call that comes to its
    end without an exception has yielded exactly one [None] per query. *)
Theorem predict_yields_only_None :
  forall (to_float : string -> option Q) (self : LazyFCA) (X : list row)
         (X_train : option (list row)) (Y_train : option (list Z))
         (confidence : bool),
    outcomes (predict to_float self X X_train Y_train confidence)
    = repeat None
        (length (outcomes (predict to_float self X X_train Y_train
                             confidence))) /\
    (length (outcomes (predict to_float self X X_train Y_train confidence))
     <= length X)%nat /\
    (ending (predict to_float self X X_train Y_train confidence) = Ok tt ->
     length (outcomes (predict to_float self X X_train Y_train confidence))
     = length X).
Proof.
  intros to_float self X X_train Y_train confidence.
  destruct (prepare to_float self X X_train Y_train)
    as [[[[self1 X'] Xt] Yt]|e] eqn:P.
  - rewrite (predict_prepared _ _ _ _ _ confidence _ _ _ _ P).
    destruct (predict_body_outcomes self1 X' Xt Yt confidence)
      as (H1 & H2 & H3).
    assert (HX : length X' = length X).
    { destruct X_train as [Xp|], Y_train as [Yp|];
        try (rewrite prepare_stored in P by auto;
             destruct (X_ self), (y_ self); cbn in P; congruence).
      destruct (prepare_passed _ _ _ _ _ _ _ _ _ P) as (_ & _ & _ & HX & _).
      now apply check_array_length in HX. }
    rewrite <- HX. now repeat split.
  - rewrite (predict_not_prepared _ _ _ _ _ confidence _ P).
    cbn [outcomes ending length repeat].
    repeat split; [apply Nat.le_0_l|discriminate].
Qed.

Lemma predict_body_after (self : LazyFCA) (X X_train : list row)
    (Y_train : list Z) (confidence : bool) :
  X_ (after (predict_body self X X_train Y_train confidence)) = X_ self /\
  y_ (after (predict_body self X X_train Y_train confidence)) = y_ self /\
  classes_ (after (predict_body self X X_train Y_train confidence))
  = classes_ self /\
  consistency_threshold
    (after (predict_body self X X_train Y_train confidence))
  = consistency_threshold self /\
  min_extent_size (after (predict_body self X X_train Y_train confidence))
  = min_extent_size self /\
  check_number (after (predict_body self X X_train Y_train confidence))
  = check_number self /\
  numerical_preprocessing
    (after (predict_body self X X_train Y_train confidence))
  = numerical_preprocessing self.
Proof.
  destruct (n_classes_dec self) as [H2|H2].
  - destruct (predict_body_two self X X_train Y_train confidence H2)
      as (Y' & _ & ->). now repeat split.
  - rewrite (predict_body_not_two _ _ _ _ _ H2). now repeat split.
Qed.

(** X5.  What a call of [predict] does to the estimator besides the
    confidence log.  The stored training data [X_] and [y_] and the
    parameters are never changed.  [classes_] is kept by a call without
    training data, and by a call whose training data or queries a
    validator rejects; it is replaced by the classes of the labels passed
    when the validators accept: after such a call the stored classes are
    those of the labels passed, not those of the stored labels. *)
Theorem predict_effect_on_estimator :
  forall (to_float : string -> option Q) (self : LazyFCA) (X : list row)
         (X_train : option (list row)) (Y_train : option (list Z))
         (confidence : bool),
    X_ (after (predict to_float self X X_train Y_train confidence))
    = X_ self /\
    y_ (after (predict to_float self X X_train Y_train confidence))
    = y_ self /\
    consistency_threshold
      (after (predict to_float self X X_train Y_train confidence))
    = consistency_threshold self /\
    min_extent_size
      (after (predict to_float self X X_train Y_train confidence))
    = min_extent_size self /\
    check_number (after (predict to_float self X X_train Y_train confidence))
    = check_number self /\
    numerical_preprocessing
      (after (predict to_float self X X_train Y_train confidence))
    = numerical_preprocessing self /\
    (X_train = None \/ Y_train = None ->
     classes_ (after (predict to_float self X X_train Y_train confidence))
     = classes_ self) /\
    (forall Xp Yp,
        X_train = Some Xp -> Y_train = Some Yp ->
        ((exists e, check_X_y to_float Xp Yp = Raise e) \/
         (exists e, check_array to_float X = Raise e) ->
         classes_ (after (predict to_float self X X_train Y_train
                            confidence))
         = classes_ self) /\
        (forall v X',
            check_X_y to_float Xp Yp = Ok v ->
            check_array to_float X = Ok X' ->
            classes_ (after (predict to_float self X X_train Y_train
                               confidence))
            = Some (unique_labels Yp))).
Proof.
  intros to_float self X X_train Y_train confidence.
  assert (Hsame :
    X_ (after (predict to_float self X X_train Y_train confidence))
    = X_ self /\
    y_ (after (predict to_float self X X_train Y_train confidence))
    = y_ self /\
    consistency_threshold
      (after (predict to_float self X X_train Y_train confidence))
    = consistency_threshold self /\
    min_extent_size
      (after (predict to_float self X X_train Y_train confidence))
    = min_extent_size self /\
    check_number (after (predict to_float self X X_train Y_train confidence))
    = check_number self /\
    numerical_preprocessing
      (after (predict to_float self X X_train Y_train confidence))
    = numerical_preprocessing self).
  { destruct (prepare to_float self X X_train Y_train)
      as [[[[self1 X'] Xt] Yt]|e] eqn:P.
    - rewrite (predict_prepared _ _ _ _ _ confidence _ _ _ _ P).
      destruct (prepare_estimator _ _ _ _ _ _ _ _ _ P)
        as (E1 & E2 & E3 & E4 & E5 & E6 & _).
      destruct (predict_body_after self1 X' Xt Yt confidence)
        as (H1 & H2 & _ & H4 & H5 & H6 & H7).
      rewrite H1, H2, H4, H5, H6, H7. now repeat split.
    - rewrite (predict_not_prepared _ _ _ _ _ confidence _ P).
      now repeat split. }
  destruct Hsame as (H1 & H2 & H3 & H4 & H5 & H6).
  do 6 (split; [assumption|]). split.
  - intros Hnone. pose proof (prepare_stored to_float self X _ _ Hnone) as P.
    destruct (X_ self) as [Xs|] eqn:EX, (y_ self) as [ys|] eqn:Ey;
      cbn in P;
      try (now rewrite (predict_not_prepared _ _ _ _ _ confidence _ P)).
    rewrite (predict_prepared _ _ _ _ _ confidence _ _ _ _ P).
    now destruct (predict_body_after self X Xs ys confidence)
      as (_ & _ & -> & _).
  - intros Xp Yp -> ->. split.
    + intros H.
      now rewrite (predict_not_prepared _ _ _ _ _ confidence _
                     (prepare_rejects to_float self X Xp Yp H)).
    + intros v X' Hv HX.
      rewrite (predict_prepared _ _ _ _ _ confidence _ _ _ _
                 (prepare_accepts to_float self X Xp Yp v X' Hv HX)).
      now destruct (predict_body_after (set_classes_ self (unique_labels Yp))
                      X' (fst v) Yp confidence) as (_ & _ & -> & _).
Qed.

(** The run depends on the estimator through its classes and four of its
    parameters only. *)
Lemma predict_body_ext (self1 self2 : LazyFCA) (X X_train : list row)
    (Y_train : list Z) (confidence : bool) :
  classes_ self1 = classes_ self2 ->
  consistency_threshold self1 = consistency_threshold self2 ->
  min_extent_size self1 = min_extent_size self2 ->
  check_number self1 = check_number self2 ->
  numerical_preprocessing self1 = numerical_preprocessing self2 ->
  outcomes (predict_body self1 X X_train Y_train confidence)
  = outcomes (predict_body self2 X X_train Y_train confidence) /\
  ending (predict_body self1 X X_train Y_train confidence)
  = ending (predict_body self2 X X_train Y_train confidence) /\
  (n_classes self1 = Some 2%nat ->
   confidence_ (after (predict_body self1 X X_train Y_train confidence))
   = confidence_ (after (predict_body self2 X X_train Y_train confidence))).
Proof.
  destruct self1, self2. cbn. intros -> -> -> -> ->.
  match goal with
  | |- context [predict_body ?s1 _ _ _ _] =>
      destruct (n_classes_dec s1) as [H2|H2]
  end.
  - destruct classes_1 as [classes|]; [|discriminate].
    injection H2 as H2. destruct (length_two _ H2) as (c0 & c1 & ->).
    unfold predict_body. cbn [classes_ length Nat.ltb Nat.leb orb].
    destruct (binarise_two c0 c1 Y_train) as (Y' & -> & _).
    match goal with
    | |- context [gfor X (predict_row ?s1 _ _ _) _] =>
        match goal with
        | |- context [gfor X (predict_row ?s2 _ _ _) _] =>
            tryif constr_eq s1 s2 then fail
            else change (predict_row s1 X_train Y' confidence)
                   with (predict_row s2 X_train Y' confidence)
        end
    end.
    destruct (gfor X _ _). now repeat split.
  - rewrite !predict_body_not_two by exact H2. cbn.
    repeat split. intros H. now destruct (H2 H).
Qed.

(** X6.  Predicting from what [fit] stored is predicting with the same
    training data passed, for queries that [check_array] has validated:
    the only thing a call without training data does not do is validate
    the queries.  The outcomes are the same, the ending is the same, the
    same classes are left on the estimator. *)
Theorem predict_after_fit :
  forall (to_float : string -> option Q) (self fitted : LazyFCA)
         (Xf : list row) (yf : list Z) (X X' : list row)
         (confidence : bool),
    fit to_float self Xf yf = Ok fitted ->
    check_array to_float X = Ok X' ->
    outcomes (predict to_float fitted X' None None confidence)
    = outcomes (predict to_float self X (Some Xf) (Some yf) confidence) /\
    ending (predict to_float fitted X' None None confidence)
    = ending (predict to_float self X (Some Xf) (Some yf) confidence) /\
    classes_ (after (predict to_float fitted X' None None confidence))
    = classes_ (after (predict to_float self X (Some Xf) (Some yf)
                         confidence)).
Proof.
  intros to_float self fitted Xf yf X X' confidence Hfit HX.
  unfold fit in Hfit.
  destruct (check_X_y to_float Xf yf) as [v|] eqn:Hv; cbn [bind] in Hfit;
    [|discriminate].
  destruct (check_X_y_labels _ _ _ _ Hv) as (_ & Hy & _).
  rewrite Hy in Hfit. injection Hfit as <-.
  rewrite (predict_prepared _ _ _ _ _ confidence _ _ _ _
             (prepare_accepts to_float self X Xf yf v X' Hv HX)).
  unfold predict. cbn [prepare X_ y_ attribute bind].
  match goal with
  | |- context [predict_body ?s X' (fst v) yf confidence] =>
      destruct (predict_body_ext s (set_classes_ self (unique_labels yf))
                  X' (fst v) yf confidence)
        as (H1 & H2 & _); try reflexivity;
      destruct (predict_body_after s X' (fst v) yf confidence)
        as (_ & _ & H3 & _)
  end.
  destruct (predict_body_after (set_classes_ self (unique_labels yf))
              X' (fst v) yf confidence) as (_ & _ & H4 & _).
  split; [exact H1|]. split; [exact H2|]. now rewrite H3, H4.
Qed.

Lemma predict_after_fit_witness :
  outcomes (predict no_number sample_fitted [sample_query_a] None None true)
  = outcomes (predict no_number sample_estimator [sample_query_a]
                (Some sample_X_train) (Some sample_Y_train) true) /\
  ending (predict no_number sample_fitted [sample_query_a] None None true)
  = ending (predict no_number sample_estimator [sample_query_a]
              (Some sample_X_train) (Some sample_Y_train) true) /\
  classes_ (after (predict no_number sample_fitted [sample_query_a]
                     None None true))
  = classes_ (after (predict no_number sample_estimator [sample_query_a]
                       (Some sample_X_train) (Some sample_Y_train) true)).
Proof.
  apply (predict_after_fit no_number sample_estimator sample_fitted
           sample_X_train sample_Y_train [sample_query_a] [sample_query_a]);
    reflexivity.
Defined.

(** X7.  Training data passed to [predict] take the place of what [fit]
    stored: the stored rows and labels have no part in the outcomes or in
    the ending of the call. *)
Theorem predict_ignores_stored_data :
  forall (to_float : string -> option Q) (self fitted : LazyFCA)
         (Xf : list row) (yf : list Z) (X Xt : list row)
         (Yt : list Z) (confidence : bool),
    fit to_float self Xf yf = Ok fitted ->
    outcomes (predict to_float fitted X (Some Xt) (Some Yt) confidence)
    = outcomes (predict to_float self X (Some Xt) (Some Yt) confidence) /\
    ending (predict to_float fitted X (Some Xt) (Some Yt) confidence)
    = ending (predict to_float self X (Some Xt) (Some Yt) confidence).
Proof.
  intros to_float self fitted Xf yf X Xt Yt confidence Hfit.
  destruct (fit_stores _ _ _ _ _ Hfit) as (_ & _ & _ & E1 & E2 & E3 & E4 & _).
  unfold predict, prepare.
  destruct (check_X_y to_float Xt Yt) as [v|e]; cbn [bind];
    [|now split].
  destruct (check_array to_float X) as [X'|e]; cbn [bind]; [|now split].
  destruct (predict_body_ext
              (set_classes_ fitted (unique_labels (snd v)))
              (set_classes_ self (unique_labels (snd v)))
              X' (fst v) (snd v) confidence)
    as (H1 & H2 & _); try reflexivity; try assumption.
  now split.
Qed.

Lemma predict_ignores_stored_data_witness :
  outcomes (predict no_number sample_fitted [sample_query_a]
              (Some [[VNum 3]; [VNum 4]]) (Some [5; 7]) false)
  = outcomes (predict no_number sample_estimator [sample_query_a]
                (Some [[VNum 3]; [VNum 4]]) (Some [5; 7]) false) /\
  ending (predict no_number sample_fitted [sample_query_a]
            (Some [[VNum 3]; [VNum 4]]) (Some [5; 7]) false)
  = ending (predict no_number sample_estimator [sample_query_a]
              (Some [[VNum 3]; [VNum 4]]) (Some [5; 7]) false).
Proof.
  apply (predict_ignores_stored_data no_number sample_estimator sample_fitted
           sample_X_train sample_Y_train).
  reflexivity.
Defined.



(** X9.  No query.  Without training data passed, on stored data and two
    classes, [predict] yields nothing, ends without an exception and has
    emptied the confidence log.  With training data passed, [check_array]
    rejects the empty query set (or [check_X_y] the training data before
    it): the call ends with [ValueError] and leaves the estimator as it
    was, the log included. *)
Theorem predict_no_query :
  forall (to_float : string -> option Q) (self : LazyFCA)
         (X_train : option (list row)) (Y_train : option (list Z))
         (confidence : bool),
    (X_train = None \/ Y_train = None ->
     forall Xs ys,
       X_ self = Some Xs -> y_ self = Some ys ->
       n_classes self = Some 2%nat ->
       outcomes (predict to_float self [] X_train Y_train confidence) = [] /\
       ending (predict to_float self [] X_train Y_train confidence)
       = Ok tt /\
       confidence_ (after (predict to_float self [] X_train Y_train
                             confidence)) = []) /\
    (forall Xp Yp,
        X_train = Some Xp -> Y_train = Some Yp ->
        predict to_float self [] X_train Y_train confidence
        = {| outcomes := []; ending := Raise ValueError; after := self |}).
Proof.
  intros to_float self X_train Y_train confidence. split.
  - intros Hnone Xs ys HX Hy H2.
    pose proof (prepare_stored to_float self [] _ _ Hnone) as P.
    rewrite HX, Hy in P. cbn in P.
    rewrite (predict_prepared _ _ _ _ _ confidence _ _ _ _ P).
    destruct (predict_body_two self [] Xs ys confidence H2)
      as (Y' & _ & ->).
    now repeat split.
  - intros Xp Yp -> ->.
    apply predict_not_prepared, prepare_rejects.
    right. now exists ValueError.
Qed.

Lemma predict_no_query_witness :
  (outcomes (predict no_number (set_confidence_ sample_fitted [1%Q]) []
               None None true) = [] /\
   ending (predict no_number (set_confidence_ sample_fitted [1%Q]) []
             None None true) = Ok tt /\
   confidence_ (after (predict no_number
                         (set_confidence_ sample_fitted [1%Q]) []
                         None None true)) = []) /\
  predict no_number (set_confidence_ sample_fitted [1%Q]) []
    (Some sample_X_train) (Some sample_Y_train) true
  = {| outcomes := []; ending := Raise ValueError;
       after := set_confidence_ sample_fitted [1%Q] |}.
Proof.
  split.
  - destruct (predict_no_query no_number
                (set_confidence_ sample_fitted [1%Q]) None None true)
      as (H & _).
    exact (H (or_introl eq_refl) sample_X_train sample_Y_train
             eq_refl eq_refl eq_refl).
  - destruct (predict_no_query no_number
                (set_confidence_ sample_fitted [1%Q])
                (Some sample_X_train) (Some sample_Y_train) true)
      as (_ & H).
    exact (H sample_X_train sample_Y_train eq_refl eq_refl).
Defined.

(** ** The labels as the scan gets them *)

Lemma unique_labels_increasing (Y : list Z) : increasing (unique_labels Y).
Proof.
  induction Y as [|y Y IH]; simpl; [exact I|].
  now apply increasing_insert_label.
Qed.




(** ** [fit] *)

(** X23.  [fit] either raises [ValueError], when [check_X_y] rejects the
    data, or returns the estimator with the validated rows, the labels and
    the labels' classes stored: as many rows as labels, every label once
    among the classes and nothing else, in increasing order.  The
    parameters and the confidence log are as before. *)
Theorem fit_validates_and_stores :
  forall (to_float : string -> option Q) (self : LazyFCA) (X : list row)
         (y : list Z),
    (forall e, fit to_float self X y = Raise e ->
               e = ValueError /\ check_X_y to_float X y = Raise ValueError) /\
    (forall fitted,
        fit to_float self X y = Ok fitted ->
        (exists X', check_array to_float X = Ok X' /\
                    length X' = length y /\ X_ fitted = Some X') /\
        y_ fitted = Some y /\
        (exists classes,
            classes_ fitted = Some classes /\ increasing classes /\
            forall z, In z classes <-> In z y) /\
        consistency_threshold fitted = consistency_threshold self /\
        min_extent_size fitted = min_extent_size self /\
        check_number fitted = check_number self /\
        numerical_preprocessing fitted = numerical_preprocessing self /\
        confidence_ fitted = confidence_ self).
Proof.
  intros to_float self X y. split.
  - intros e H. pose proof (fit_error _ _ _ _ _ H) as ->.
    split; [reflexivity|]. unfold fit in H.
    destruct (check_X_y to_float X y) as [v|e] eqn:E; [discriminate|].
    now rewrite (check_X_y_error _ _ _ _ E).
  - intros fitted H.
    destruct (fit_stores _ _ _ _ _ H)
      as ((X' & HX & HX_) & Hy & Hc & H1 & H2 & H3 & H4 & H5).
    repeat split; try assumption.
    + exists X'. repeat split; try assumption.
      unfold fit in H.
      destruct (check_X_y to_float X y) as [v|] eqn:E; [|discriminate].
      destruct (check_X_y_labels _ _ _ _ E) as (HX' & _ & Hl).
      rewrite HX in HX'. now injection HX' as ->.
    + exists (unique_labels y). split; [exact Hc|].
      split; [apply unique_labels_increasing|].
      intros z. apply in_unique_labels.
Qed.

(** ** [_compute_extent_target] on a training array *)

(** A row of numbers is valid for every pattern. *)
Lemma numeric_row_is_valid (r : row) (rest : list row) (p : pattern) :
  forallb is_num r = true ->
  row_is_valid (Arr2 (r :: rest)) p 0 = Ok true.
Proof.
  intros Hnum. unfold row_is_valid. cbn [shape getitem nth_error bind].
  apply for_in_skip. intros j Hj. apply in_range in Hj.
  unfold check_column. cbn [cell getitem nth_error bind].
  destruct (nth_error r j) as [v|] eqn:Hv;
    [|apply nth_error_None in Hv; lia].
  rewrite forallb_forall in Hnum.
  specialize (Hnum v (nth_error_In _ _ Hv)).
  rewrite (getitem_Some _ _ _ Hv).
  destruct v; [discriminate|reflexivity].
Qed.

(** X11.  Whatever the pattern, the evaluation raises [TypeError] on a training
    array whose first row holds numbers only and has a label: no cell of
    that row is compared with the pattern, the row counts as valid, and
    the count cannot be updated. *)
Theorem extent_target_numeric_rows_raise :
  forall (self : LazyFCA) (r : row) (rest : list row) (Y_train : labels)
         (y : Z) (p : pattern),
    forallb is_num r = true ->
    label_at Y_train 0 = Ok y ->
    _compute_extent_target self (Arr2 (r :: rest)) Y_train p
    = Raise TypeError.
Proof.
  intros self r rest Y_train y p Hnum Hy. unfold _compute_extent_target.
  rewrite (count_labels_first_valid (r :: rest) Y_train p 0 y);
    [reflexivity|simpl; lia|intros k Hk; lia| |exact Hy].
  now apply numeric_row_is_valid.
Qed.

Lemma extent_target_numeric_rows_raise_witness :
  _compute_extent_target default_estimator
    (Arr2 [[VNum 7; VNum 8]; [VNum 1; VNum 2]]) (LArray [0; 1])
    [PTuple (BVal (VNum 0)) (BVal (VNum 1)); PVal (VStr "a")]
  = Raise TypeError.
Proof.
  apply (extent_target_numeric_rows_raise default_estimator
           [VNum 7; VNum 8] [[VNum 1; VNum 2]] (LArray [0; 1]) 0);
    reflexivity.
Defined.

(** A round that left [is_valid] as it was, or did not end. *)
Ltac settle_round H Hb :=
  destruct H as [H|H];
  first [discriminate H | injection H as <-; exact Hb].

(** X12.  The only way a training row is found not valid: one of its cells is a
    string, and the pattern entry of that column is neither the wildcard
    nor that string.  A numeric cell never makes a row invalid, whatever
    interval the pattern holds for its column. *)
Theorem row_invalid_only_by_string_mismatch :
  forall (X_train : ndarray) (p : pattern) (i : nat),
    row_is_valid X_train p i = Ok false ->
    exists j s e,
      cell X_train i j = Ok (VStr s) /\
      getitem p j = Ok e /\
      pvalue_ne_str e "*" = true /\
      pvalue_ne_str e s = true.
Proof.
  intros X_train p i. unfold row_is_valid.
  destruct (getitem (shape X_train) 1) as [ncols|]; [|discriminate].
  cbn [bind]. intros H.
  assert (I : false = true \/
              exists j s e,
                cell X_train i j = Ok (VStr s) /\ getitem p j = Ok e /\
                pvalue_ne_str e "*" = true /\ pvalue_ne_str e s = true).
  { revert H.
    apply (for_in_invariant _
             (fun b : bool =>
                b = true \/
                exists j s e,
                  cell X_train i j = Ok (VStr s) /\ getitem p j = Ok e /\
                  pvalue_ne_str e "*" = true /\ pvalue_ne_str e s = true));
      [|now left].
    intros j b b' _ Hb Hstep. unfold check_column in Hstep.
    destruct (cell X_train i j) as [[s|q]|] eqn:Hc; cbn [bind] in Hstep;
      [|settle_round Hstep Hb|settle_round Hstep Hb].
    destruct (getitem p j) as [e|] eqn:He; cbn [bind] in Hstep;
      [|settle_round Hstep Hb].
    destruct (pvalue_ne_str e "*" && pvalue_ne_str e s) eqn:Hne.
    - apply andb_true_iff in Hne. destruct Hne as (N1 & N2).
      right. now exists j, s, e.
    - destruct (subscript e 0) as [lo|]; cbn [bind] in Hstep;
        [|settle_round Hstep Hb].
      destruct (py_lt (BVal (VStr s)) lo) as [[|]|]; cbn [bind] in Hstep;
        [settle_round Hstep Hb| |settle_round Hstep Hb].
      destruct (subscript e 1) as [hi|]; cbn [bind] in Hstep;
        [|settle_round Hstep Hb].
      destruct (py_lt hi (BVal (VStr s))) as [[|]|]; cbn [bind] in Hstep;
        settle_round Hstep Hb. }
  destruct I as [I|I]; [discriminate|exact I].
Qed.

Lemma row_invalid_only_by_string_mismatch_witness :
  exists j s e,
    cell (Arr2 [[VNum 9; VStr "ab"]]) 0 j = Ok (VStr s) /\
    getitem [PTuple (BVal (VNum 0)) (BVal (VNum 1)); PVal (VStr "cd")] j
    = Ok e /\
    pvalue_ne_str e "*" = true /\
    pvalue_ne_str e s = true.
Proof.
  apply (row_invalid_only_by_string_mismatch
           (Arr2 [[VNum 9; VStr "ab"]])
           [PTuple (BVal (VNum 0)) (BVal (VNum 1)); PVal (VStr "cd")] 0).
  reflexivity.
Defined.

(** X13.  A pattern entry of one character (the wildcard, or a category named by
    one letter) that admits the string cell of the first column of the first
    training row: unless the cell sorts below it, the evaluation reads the
    second character of the entry and raises [IndexError]. *)
Theorem extent_target_one_character_entry_raises :
  forall (self : LazyFCA) (s t : string) (r : row) (rest : list row)
         (Y_train : labels) (p : pattern),
    String.length t = 1%nat ->
    t = "*"%string \/ t = s ->
    String.ltb s t = false ->
    _compute_extent_target self (Arr2 ((VStr s :: r) :: rest)) Y_train
      (PVal (VStr t) :: p)
    = Raise IndexError.
Proof.
  intros self s t r rest Y_train p Hlen Hadmit Hlt.
  destruct t as [|c [|c' t']]; try discriminate.
  assert (Hcond : pvalue_ne_str (PVal (VStr (String c EmptyString))) "*"
                  && pvalue_ne_str (PVal (VStr (String c EmptyString))) s = false).
  { cbn [pvalue_ne_str]. destruct Hadmit as [E|E].
    - rewrite E. reflexivity.
    - rewrite E, String.eqb_refl. cbn. apply andb_false_r. }
  unfold _compute_extent_target, count_labels.
  cbn [shape getitem nth_error bind length range seq for_in].
  unfold count_row at 1, row_is_valid.
  cbn [shape getitem nth_error bind length range seq for_in].
  unfold check_column at 1.
  cbn [cell getitem nth_error bind]. rewrite Hcond.
  cbn [subscript String.get bind py_lt]. rewrite Hlt. reflexivity.
Qed.

Lemma extent_target_one_character_entry_raises_witness :
  _compute_extent_target default_estimator
    (Arr2 [[VStr "a"; VNum 1]; [VStr "b"; VNum 2]]) (LArray [0; 1])
    [wildcard; PTuple (BVal (VNum 1)) (BVal (VNum 2))] = Raise IndexError /\
  _compute_extent_target default_estimator
    (Arr2 [[VStr "a"; VNum 1]; [VStr "b"; VNum 2]]) (LArray [0; 1])
    [PVal (VStr "a"); PTuple (BVal (VNum 1)) (BVal (VNum 2))]
  = Raise IndexError.
Proof.
  split.
  - apply (extent_target_one_character_entry_raises default_estimator
             "a" "*" [VNum 1] [[VStr "b"; VNum 2]] (LArray [0; 1])
             [PTuple (BVal (VNum 1)) (BVal (VNum 2))]).
    + reflexivity.
    + left. reflexivity.
    + reflexivity.
  - apply (extent_target_one_character_entry_raises default_estimator
             "a" "a" [VNum 1] [[VStr "b"; VNum 2]] (LArray [0; 1])
             [PTuple (BVal (VNum 1)) (BVal (VNum 2))]).
    + reflexivity.
    + right. reflexivity.
    + reflexivity.
Defined.

(** X14.  When no row of the training array is valid (so also when the array
    has no row), the evaluation returns [None] if [min_extent_size] is at
    least 1 and raises [ZeroDivisionError] otherwise: the share of the
    majority label is computed on an empty extent. *)
Theorem extent_target_without_valid_row :
  forall (self : LazyFCA) (rows : list row) (Y_train : labels) (p : pattern),
    (forall i, (i < length rows)%nat ->
               row_is_valid (Arr2 rows) p i = Ok false) ->
    _compute_extent_target self (Arr2 rows) Y_train p
    = if 0 <? min_extent_size self then Ok None else Raise ZeroDivisionError.
Proof.
  intros self rows Y_train p Hrows. unfold _compute_extent_target, count_labels.
  change (getitem (shape (Arr2 rows)) 0) with (@Ok nat (length rows)).
  cbn [bind]. rewrite for_in_skip.
  - cbn [bind]. apply extent_verdict_start.
  - intros i Hi. apply in_range in Hi.
    apply count_row_invalid. now apply Hrows.
Qed.

Lemma extent_target_without_valid_row_witness :
  _compute_extent_target default_estimator
    (Arr2 [[VStr "ab"]; [VStr "ef"]]) (LArray [0; 1]) [PVal (VStr "cd")]
  = Ok None.
Proof.
  apply (extent_target_without_valid_row default_estimator
           [[VStr "ab"]; [VStr "ef"]] (LArray [0; 1]) [PVal (VStr "cd")]).
  intros i Hi.
  destruct i as [|[|i]]; [reflexivity|reflexivity|simpl in Hi; lia].
Defined.

(** X15.  Whatever array, labels and pattern it is given, two-dimensional or
    not, the evaluation never returns a label: it raises, or it returns
    [None], and it returns [None] only under a [min_extent_size] of at
    least 1. *)
Theorem extent_target_returns_no_label :
  forall (self : LazyFCA) (X_train : ndarray) (Y_train : labels)
         (p : pattern),
    (exists e, _compute_extent_target self X_train Y_train p = Raise e) \/
    (_compute_extent_target self X_train Y_train p = Ok None /\
     0 < min_extent_size self).
Proof.
  intros self X_train Y_train p. unfold _compute_extent_target.
  destruct (count_labels X_train Y_train p) as [c|e] eqn:E; cbn [bind].
  - apply count_labels_unchanged in E. subst c.
    rewrite extent_verdict_start.
    destruct (Z.ltb_spec 0 (min_extent_size self)).
    + right. now split.
    + left. now exists ZeroDivisionError.
  - left. now exists e.
Qed.

(** ** The interval policies as functions of two numbers *)

Lemma py_lt_numbers (a b : Q) :
  py_lt (BVal (VNum a)) (BVal (VNum b))
  = Ok (match (a ?= b)%Q with Lt => true | _ => false end).
Proof. reflexivity. Qed.

(** X16.  Given their two arguments, the basic and the lower-bounded policy
    return an interval whose ends are taken from the arguments and which
    contains both of them. *)
Theorem interval_policies_contain_arguments :
  forall a b : Q,
    (exists lo hi,
        _basic_interval (AVal (VNum a)) (AVal (VNum b))
        = Ok (PTuple (BVal (VNum lo)) (BVal (VNum hi))) /\
        (lo = a \/ lo = b) /\ (hi = a \/ hi = b) /\
        within (BVal (VNum lo)) (BVal (VNum hi)) a /\
        within (BVal (VNum lo)) (BVal (VNum hi)) b) /\
    (exists lo,
        _min_inf_interval (AVal (VNum a)) (AVal (VNum b))
        = Ok (PTuple (BVal (VNum lo)) BInf) /\
        (lo = a \/ lo = b) /\
        within (BVal (VNum lo)) BInf a /\
        within (BVal (VNum lo)) BInf b).
Proof.
  intros a b.
  unfold _basic_interval, _min_inf_interval, py_min, py_max.
  cbn [arg_bound bind]. rewrite !py_lt_numbers. cbn [bind within].
  rewrite <- (Qcompare_antisym a b).
  destruct (Qcompare_spec a b) as [E|L|G]; cbn [CompOpp].
  - split; [exists a, a|exists a]; repeat split; auto with qarith;
      rewrite E; auto with qarith.
  - split; [exists a, b|exists a]; repeat split; auto with qarith.
  - split; [exists b, a|exists b]; repeat split; auto with qarith.
Qed.

(** X17.  Given its two arguments, the policy chosen by the name
    ["max_inf_interval"] returns the interval from the larger argument
    upwards: of two different numbers, the smaller one is not in it. *)
Theorem upper_policy_excludes_smaller_argument :
  forall a b : Q,
    (a < b)%Q ->
    init_numerical_preprocessing (PolicyName "max_inf_interval")
    = BoundMethod _min_max_interval /\
    _min_max_interval (AVal (VNum a)) (AVal (VNum b))
    = Ok (PTuple (BVal (VNum b)) BInf) /\
    _min_max_interval (AVal (VNum b)) (AVal (VNum a))
    = Ok (PTuple (BVal (VNum b)) BInf) /\
    ~ within (BVal (VNum b)) BInf a.
Proof.
  intros a b Hab. split; [reflexivity|].
  unfold _min_max_interval, py_max.
  cbn [arg_bound bind]. rewrite !py_lt_numbers. cbn [bind within].
  rewrite <- (Qcompare_antisym a b).
  destruct (Qcompare_spec a b) as [E|L|G]; cbn [CompOpp].
  - rewrite E in Hab. now apply Qlt_irrefl in Hab.
  - repeat split. now apply Qlt_not_le.
  - destruct (Qlt_irrefl a). now apply (Qlt_trans a b a).
Qed.

Lemma upper_policy_excludes_smaller_argument_witness :
  init_numerical_preprocessing (PolicyName "max_inf_interval")
  = BoundMethod _min_max_interval /\
  _min_max_interval (AVal (VNum 1)) (AVal (VNum 2))
  = Ok (PTuple (BVal (VNum 2)) BInf) /\
  _min_max_interval (AVal (VNum 2)) (AVal (VNum 1))
  = Ok (PTuple (BVal (VNum 2)) BInf) /\
  ~ within (BVal (VNum 2)) BInf 1.
Proof.
  apply (upper_policy_excludes_smaller_argument 1 2). reflexivity.
Defined.

(** X18.  Only a callable of the caller's can be called: whatever else the
    constructor is given for the policy (a name, known or not, or
    nothing), the callable it stores raises [TypeError] on every pair of
    cells, and a callable of the caller's is called as it is. *)
Theorem constructor_policy_call :
  forall (p : policy_arg) (a b : value),
    call (init_numerical_preprocessing p) a b
    = match p with
      | PolicyCallable g => Ok (g a b)
      | _ => Raise TypeError
      end.
Proof.
  intros [g|name|] a b; cbn [init_numerical_preprocessing]; try reflexivity.
  destruct (name =? "min_inf_interval")%string; [reflexivity|].
  now destruct (name =? "max_inf_interval")%string.
Qed.

(** ** Attributes *)

Lemma getattr_setattr (self : attributes) (k k' : string) (v : pyobj) :
  getattr (setattr self k v) k'
  = if (k =? k')%string then Found v else getattr self k'.
Proof.
  induction self as [|[k0 v0] self IH]; cbn [setattr getattr].
  - now destruct (k =? k')%string.
  - destruct (String.eqb_spec k0 k) as [->|Hk].
    + cbn [getattr]. now destruct (k =? k')%string.
    + cbn [getattr]. rewrite IH.
      destruct (String.eqb_spec k0 k') as [->|Hk']; [|reflexivity].
      destruct (String.eqb_spec k k'); [congruence|reflexivity].
Qed.

Lemma set_params_snoc (self ps : attributes) (kv : string * pyobj) :
  set_params self (ps ++ [kv]) = setattr (set_params self ps) (fst kv) (snd kv).
Proof. unfold set_params. now rewrite fold_left_app. Qed.

Lemma getattr_set_params (self ps : attributes) (k : string) :
  getattr (set_params self ps) k
  = match find (fun kv => (fst kv =? k)%string) (rev ps) with
    | Some kv => Found (snd kv)
    | None => getattr self k
    end.
Proof.
  induction ps as [|kv ps IH] using rev_ind; [reflexivity|].
  rewrite set_params_snoc, getattr_setattr, rev_app_distr. cbn [rev app find].
  now destruct (fst kv =? k)%string.
Qed.

(** X20.  After [set_params], an attribute holds the value of the last parameter
    given under its name, and what it held before (or nothing) if no
    parameter has its name: parameters are stored as they are, under any
    name, with no look at what the constructor accepts. *)
Theorem set_params_then_getattr :
  forall (self parameters : attributes) (name : string),
    getattr (set_params self parameters) name
    = match find (fun kv => (fst kv =? name)%string) (rev parameters) with
      | Some kv => Found (snd kv)
      | None => getattr self name
      end.
Proof. exact getattr_set_params. Qed.

Lemma find_name_none (ps : attributes) (k : string) :
  ~ In k (map fst ps) ->
  find (fun kv => (fst kv =? k)%string) (rev ps) = None.
Proof.
  intros Hk.
  destruct (find (fun kv => (fst kv =? k)%string) (rev ps)) as [kv|] eqn:F;
    [|reflexivity].
  apply find_some in F. destruct F as (Hin & Heq).
  apply String.eqb_eq in Heq. apply in_rev in Hin.
  destruct Hk. rewrite <- Heq. now apply in_map.
Qed.

Lemma find_name_some (ps : attributes) (k : string) :
  In k (map fst ps) ->
  exists kv, find (fun kv => (fst kv =? k)%string) (rev ps) = Some kv.
Proof.
  intros Hk.
  destruct (find (fun kv => (fst kv =? k)%string) (rev ps)) as [kv|] eqn:F;
    [now exists kv|].
  apply in_map_iff in Hk. destruct Hk as (kv & Hfst & Hin).
  apply in_rev in Hin. apply (find_none _ _ F) in Hin.
  rewrite Hfst, String.eqb_refl in Hin. discriminate.
Qed.

Lemma getattr_found_set_params (self ps : attributes) (k : string)
    (v : pyobj) :
  getattr self k = Found v ->
  exists v', getattr (set_params self ps) k = Found v'.
Proof.
  intros H. rewrite getattr_set_params.
  destruct (find _ (rev ps)) as [kv|]; [now exists (snd kv)|now exists v].
Qed.

(** X21.  [get_params] reads an attribute, [check_all], that the constructor does
    not set.  On an estimator as constructed, and after any [set_params]
    that does not name [check_all], it raises [AttributeError] for that
    name; once [set_params] has been given [check_all], it returns its
    dictionary. *)
Theorem get_params_needs_check_all :
  forall (ct ut mes cn : pyobj) (np : policy_arg) (parameters : attributes),
    (~ In "check_all"%string (map fst parameters) ->
     get_params (set_params (__init__ ct ut mes cn np) parameters)
     = AttributeError "check_all") /\
    (In "check_all"%string (map fst parameters) ->
     exists d,
       get_params (set_params (__init__ ct ut mes cn np) parameters)
       = Found d /\
       map fst d = [ "consistency_threshold"; "min_extent_size";
                     "check_all"; "numerical_preprocessing" ]%string).
Proof.
  intros ct ut mes cn np ps.
  destruct (getattr_found_set_params (__init__ ct ut mes cn np) ps
              "consistency_threshold" ct eq_refl) as (v1 & H1).
  destruct (getattr_found_set_params (__init__ ct ut mes cn np) ps
              "min_extent_size" mes eq_refl) as (v2 & H2).
  destruct (getattr_found_set_params (__init__ ct ut mes cn np) ps
              "numerical_preprocessing"
              (OCallable (init_numerical_preprocessing np)) eq_refl)
    as (v4 & H4).
  unfold get_params. rewrite H1, H2, H4. split; intros Hk.
  - rewrite getattr_set_params, (find_name_none _ _ Hk). reflexivity.
  - rewrite getattr_set_params.
    destruct (find_name_some _ _ Hk) as (kv & ->).
    eexists. split; reflexivity.
Qed.

Lemma setattr_same (self : attributes) (k : string) (v : pyobj) :
  getattr self k = Found v -> setattr self k v = self.
Proof.
  induction self as [|[k0 v0] self IH]; cbn [getattr setattr];
    [discriminate|].
  destruct (String.eqb_spec k0 k) as [->|Hk].
  - now intros [= ->].
  - intros H. now rewrite IH.
Qed.

(** X22.  Whenever [get_params] returns, giving its dictionary back to
    [set_params] leaves every attribute as it is. *)
Theorem set_params_of_get_params :
  forall (self d : attributes),
    get_params self = Found d -> set_params self d = self.
Proof.
  intros self d. unfold get_params.
  destruct (getattr self "consistency_threshold") as [v1|] eqn:H1;
    [|discriminate].
  destruct (getattr self "min_extent_size") as [v2|] eqn:H2; [|discriminate].
  destruct (getattr self "check_all") as [v3|] eqn:H3; [|discriminate].
  destruct (getattr self "numerical_preprocessing") as [v4|] eqn:H4;
    [|discriminate].
  intros [= <-]. unfold set_params. cbn [fold_left fst snd].
  now rewrite (setattr_same _ _ _ H1), (setattr_same _ _ _ H2),
    (setattr_same _ _ _ H3), (setattr_same _ _ _ H4).
Qed.

Lemma set_params_of_get_params_witness :
  set_params
    (set_params (__init__ (OFloat (9 # 10)) (OFloat (8 # 10)) (OInt 2)
                          (OInt 1) PolicyNone)
                [("check_all"%string, OInt 1)])
    [ ("consistency_threshold"%string, OFloat (9 # 10));
      ("min_extent_size"%string, OInt 2);
      ("check_all"%string, OInt 1);
      ("numerical_preprocessing"%string,
       OCallable (init_numerical_preprocessing PolicyNone)) ]
  = set_params (__init__ (OFloat (9 # 10)) (OFloat (8 # 10)) (OInt 2)
                         (OInt 1) PolicyNone)
               [("check_all"%string, OInt 1)].
Proof.
  apply (set_params_of_get_params
           (set_params (__init__ (OFloat (9 # 10)) (OFloat (8 # 10)) (OInt 2)
                                 (OInt 1) PolicyNone)
                       [("check_all"%string, OInt 1)])).
  reflexivity.
Defined.
